(** * Classroom snippets: a shallow embedding of [classroom/snippets/snippets.py]

    The Python module wraps calls to a remote, resource-oriented API behind
    an injected [service] handle.  Every method builds a request, runs it
    with [.execute()], and prints something about the decoded response; four
    methods wrap such a call in a cursor-based pagination loop.

    The embedding keeps what the methods can observe and change:
    - decoded JSON values, with Python's [dict.get], item assignment,
      iteration, truthiness and [==] on them;
    - the exceptions that reach a [try]/[except];
    - the world: the log of requests run so far and the lines printed.

    The remote service is a function of the request log and the current
    request, so a fake service may answer each call differently. *)

From Stdlib Require Import String Ascii List ZArith Bool Lia.
From Stdlib Require QArith.QArith_base.
Import ListNotations.
Local Open Scope string_scope.
Local Open Scope list_scope.
Local Set Warnings "-register-all".

(** ** Decoded JSON values *)

(** What [json] decoding and the API client hand back: [None], booleans,
    integers, finite floats (by their rational value), strings, lists and
    dicts.  A dict is an association list in insertion order, as Python
    dicts iterate. *)
Inductive value : Type :=
| VNone
| VBool (b : bool)
| VInt (z : Z)
| VFloat (q : QArith_base.Q)
| VStr (s : string)
| VList (l : list value)
| VDict (d : list (string * value)).

Inductive exn : Type :=
| HttpError (content : option value)
| AttributeError
| TypeError
| JSONDecodeError
| OtherError (name : string).

Inductive result (A : Type) : Type :=
| Return (a : A)
| Raise (e : exn).
Arguments Return {A} a.
Arguments Raise {A} e.

(** [d.get(k)] on the entries of a dict: the first entry under [k]. *)
Fixpoint dict_get (d : list (string * value)) (k : string) : option value :=
  match d with
  | [] => None
  | (k', v) :: d' => if String.eqb k' k then Some v else dict_get d' k
  end.

(** [d[k] = v] on the entries of a dict: an existing key keeps its place,
    a new key goes last. *)
Fixpoint dict_set (d : list (string * value)) (k : string) (v : value)
  : list (string * value) :=
  match d with
  | [] => [(k, v)]
  | (k', v') :: d' =>
      if String.eqb k' k then (k, v) :: d' else (k', v') :: dict_set d' k v
  end.

(** [o.get(k, default)]: only dicts have a [get] method. *)
Definition py_get (o : value) (k : string) (default : value) : result value :=
  match o with
  | VDict d => Return (match dict_get d k with Some v => v | None => default end)
  | _ => Raise AttributeError
  end.

(** [o[k] = v] with a string key: dicts take it, nothing else does. *)
Definition py_setitem (o : value) (k : string) (v : value) : result value :=
  match o with
  | VDict d => Return (VDict (dict_set d k v))
  | _ => Raise TypeError
  end.

(** The elements [list.extend(o)] appends: the items of a list, the
    characters of a string, the keys of a dict; other values are not
    iterable. *)
Definition py_iter (o : value) : result (list value) :=
  match o with
  | VList l => Return l
  | VStr s => Return (map (fun c => VStr (String c EmptyString)) (list_ascii_of_string s))
  | VDict d => Return (map (fun kv => VStr (fst kv)) d)
  | _ => Raise TypeError
  end.

(** Truth value of an object, as [not o] and [if o] test it. *)
Definition truthy (o : value) : bool :=
  match o with
  | VNone => false
  | VBool b => b
  | VInt z => negb (z =? 0)%Z
  | VFloat q => negb (QArith_base.Qeq_bool q (QArith_base.inject_Z 0))
  | VStr s => negb (String.eqb s EmptyString)
  | VList l => match l with [] => false | _ => true end
  | VDict d => match d with [] => false | _ => true end
  end.

(** [o == n] for an integer literal [n]: numbers compare by value (a bool
    is the integer 0 or 1), everything else differs. *)
Definition py_eq_int (o : value) (n : Z) : bool :=
  match o with
  | VInt z => (z =? n)%Z
  | VBool b => (Z.b2z b =? n)%Z
  | VFloat q => QArith_base.Qeq_bool q (QArith_base.inject_Z n)
  | _ => false
  end.

(** [json.loads(e.content)]: the error body is kept by what it decodes to,
    [None] when it is not JSON. *)
Definition json_loads (content : option value) : result value :=
  match content with
  | Some v => Return v
  | None => Raise JSONDecodeError
  end.

(** ** Requests, the service and the world *)

(** One constructor per request the module builds, with its keyword
    arguments. *)
Inductive request : Type :=
| CoursesCreate (body : value)
| CoursesGet (id : string)
| CoursesList (pageToken : value) (pageSize : Z)
| CoursesUpdate (id : string) (body : value)
| CoursesPatch (id : string) (updateMask : string) (body : value)
| AliasesCreate (courseId : string) (body : value)
| TeachersCreate (courseId : string) (body : value)
| StudentsCreate (courseId : string) (enrollmentCode : string) (body : value)
| CourseWorkCreate (courseId : string) (body : value)
| StudentSubmissionsList (pageToken : value) (courseId courseWorkId : string)
                         (userId : option string).

(** The injected [service]: given the requests already run and the current
    one, it returns a decoded response or raises. *)
Definition service : Type := list request -> request -> result value.

(** An argument of [print]: a value, or a [template % args] string left
    unformatted. *)
Inductive printed : Type :=
| PVal (v : value)
| PFmt (template : string) (args : list value).

Record world : Type := mkWorld {
  calls : list request;
  stdout : list (list printed)
}.

Definition init_world : world := mkWorld [] [].

(** ** The monad of a method body: state and exceptions *)

Definition M (A : Type) : Type := world -> result A * world.

Definition ret {A} (a : A) : M A := fun w => (Return a, w).

Definition raise {A} (e : exn) : M A := fun w => (Raise e, w).

Definition bind {A B} (c : M A) (k : A -> M B) : M B :=
  fun w =>
    match c w with
    | (Return a, w') => k a w'
    | (Raise e, w') => (Raise e, w')
    end.

Definition lift {A} (r : result A) : M A := fun w => (r, w).

Notation "x <- c ;; k" := (bind c (fun x => k))
  (at level 61, c at next level, right associativity).
Notation "c ;; k" := (bind c (fun _ => k))
  (at level 61, right associativity).

(** [request.execute()]: asks the service and logs the request. *)
Definition execute (srv : service) (req : request) : M value :=
  fun w => (srv (calls w) req, mkWorld (calls w ++ [req]) (stdout w)).

(** [print(args...)]. *)
Definition py_print (args : list printed) : M unit :=
  fun w => (Return tt, mkWorld (calls w) (stdout w ++ [args])).

(** [try: body  except errors.HttpError as e: handler]; the handler gets the
    exception and its [content].  Other exceptions pass through. *)
Definition try_except_HttpError {A} (body : M A) (handler : exn -> option value -> M A)
  : M A :=
  fun w =>
    match body w with
    | (Raise (HttpError content), w') => handler (HttpError content) content w'
    | other => other
    end.

(** [for x in xs: body]. *)
Fixpoint for_each {A} (xs : list A) (body : A -> M unit) : M unit :=
  match xs with
  | [] => ret tt
  | x :: xs' => body x ;; for_each xs' body
  end.

(** A run of a loop: finished (returned or raised), or still looping when
    the fuel ran out. *)
Inductive run (A : Type) : Type :=
| Done (r : result A)
| OutOfFuel.
Arguments Done {A} r.
Arguments OutOfFuel {A}.

(** ** The methods of [ClassroomSnippets] *)

(** The double-quote character, for the messages that contain it. *)
Definition dq : string := Eval cbv in String (ascii_of_nat 34) EmptyString.

(** [create_course]: creates a 10th Grade Biology course. *)
Definition create_course (srv : service) : M unit :=
  let course := VDict
    [ ("name", VStr "10th Grade Biology");
      ("section", VStr "Period 2");
      ("descriptionHeading", VStr "Welcome to 10th Grade Biology");
      ("description", VStr "We'll be learning about about the
                         structure of living creatures from a
                         combination of textbooks, guest lectures,
                         and lab work. Expect to be excited!");
      ("room", VStr "301");
      ("ownerId", VStr "me");
      ("courseState", VStr "PROVISIONED") ] in
  course <- execute srv (CoursesCreate course) ;;
  name <- lift (py_get course "name" VNone) ;;
  id <- lift (py_get course "id" VNone) ;;
  py_print [PVal (VStr "Course created:"); PVal name; PVal id].

(** [get_course]: retrieves a course by its id; a 404 is reported, any
    other HTTP error is raised again. *)
Definition get_course (srv : service) : M unit :=
  let course_id := "123456" in
  try_except_HttpError
    (course <- execute srv (CoursesGet course_id) ;;
     name <- lift (py_get course "name" VNone) ;;
     py_print [PVal (VStr ("Course " ++ dq ++ "{%s}" ++ dq ++ " found.")%string); PVal name])
    (fun e content =>
       body <- lift (json_loads content) ;;
       error <- lift (py_get body "error" VNone) ;;
       code <- lift (py_get error "code" VNone) ;;
       if py_eq_int code 404
       then py_print [PVal (VStr ("Course with ID " ++ dq ++ "{%s}" ++ dq ++ " not found.")%string);
                      PVal (VStr course_id)]
       else raise e).

(** One turn of the [while True:] loop the listing methods share: fetch the
    page for [page_token], extend the items with the page's, read the next
    token.  [mk] builds the listing request, [key] names the items field. *)
Definition loop_body (srv : service) (mk : value -> request) (key : string)
    (items : list value) (page_token : value) : M (list value * value) :=
  response <- execute srv (mk page_token) ;;
  page <- lift (py_get response key (VList [])) ;;
  more <- lift (py_iter page) ;;
  page_token <- lift (py_get response "nextPageToken" VNone) ;;
  ret (items ++ more, page_token).

(** The loop itself: it breaks when the token just read is falsy, and is
    cut after [fuel] turns. *)
Fixpoint list_loop (fuel : nat) (srv : service) (mk : value -> request) (key : string)
    (items : list value) (page_token : value) (w : world) : run (list value) * world :=
  match fuel with
  | O => (OutOfFuel, w)
  | S fuel' =>
      match loop_body srv mk key items page_token w with
      | (Raise e, w') => (Done (Raise e), w')
      | (Return (items', page_token'), w') =>
          if truthy page_token'
          then list_loop fuel' srv mk key items' page_token' w'
          else (Done (Return items'), w')
      end
  end.

(** What follows a listing loop: the items found are reported by [report]. *)
Definition then_report {A} (r : run (list value) * world) (report : list value -> M A)
  : run A * world :=
  match r with
  | (OutOfFuel, w) => (OutOfFuel, w)
  | (Done (Raise e), w) => (Done (Raise e), w)
  | (Done (Return items), w) => let (a, w') := report items w in (Done a, w')
  end.

Definition courses_list_request (page_token : value) : request :=
  CoursesList page_token 100.

Definition report_courses (courses : list value) : M unit :=
  match courses with
  | [] => py_print [PVal (VStr "No courses found.")]
  | _ =>
      py_print [PVal (VStr "Courses:")] ;;
      for_each courses (fun course =>
        name <- lift (py_get course "name" VNone) ;;
        id <- lift (py_get course "id" VNone) ;;
        py_print [PVal name; PVal id])
  end.

(** [list_courses]: lists all classroom courses. *)
Definition list_courses (fuel : nat) (srv : service) (w : world) : run unit * world :=
  then_report
    (list_loop fuel srv courses_list_request "courses" [] VNone w)
    report_courses.

(** [update_course]: fetches the course, sets its section and room, and
    sends the whole record back. *)
Definition update_course (srv : service) : M unit :=
  let course_id := "123456" in
  course <- execute srv (CoursesGet course_id) ;;
  course <- lift (py_setitem course "section" (VStr "Period 3")) ;;
  course <- lift (py_setitem course "room" (VStr "302")) ;;
  course <- execute srv (CoursesUpdate course_id course) ;;
  name <- lift (py_get course "name" VNone) ;;
  py_print [PFmt "Course %s updated." [name]].

(** [patch_course]: patches the section and room of a course. *)
Definition patch_course (srv : service) : M unit :=
  let course_id := "123456" in
  let course := VDict [ ("section", VStr "Period 3"); ("room", VStr "302") ] in
  course <- execute srv (CoursesPatch course_id "section,room" course) ;;
  name <- lift (py_get course "name" VNone) ;;
  py_print [PFmt ("Course " ++ dq ++ "%s" ++ dq ++ " updated.")%string [name]].

(** [add_alias_new]: creates a course under an alias; any HTTP error is
    caught and reported. *)
Definition add_alias_new (srv : service) : M unit :=
  let alias := "d:school_math_101" in
  let course := VDict
    [ ("id", VStr alias);
      ("name", VStr "Math 101");
      ("section", VStr "Period 2");
      ("description", VStr "Course Description");
      ("room", VStr "301");
      ("ownerId", VStr "me") ] in
  try_except_HttpError
    (course <- execute srv (CoursesCreate course) ;;
     ret tt)
    (fun _ _ => py_print [PVal (VStr "Course Creation Failed")]).

(** [add_alias_existing]: adds an alias to an existing course; any HTTP
    error is caught and reported.  The [def]s that follow in its body in the
    source only bind local names and run nothing. *)
Definition add_alias_existing (srv : service) : M unit :=
  let courseId := "123456" in
  let alias := "d:school_math_101" in
  let courseAlias := VDict [ ("alias", VStr alias) ] in
  try_except_HttpError
    (courseAlias <- execute srv (AliasesCreate courseId courseAlias) ;;
     ret tt)
    (fun _ _ => py_print [PVal (VStr "Alias Creation Failed")]).

(** The remaining functions are written, in the source, inside the body of
    [add_alias_existing]; each is embedded as the function its [def]
    defines. *)

(** [add_teacher]: adds a teacher to a course; a 409 is reported, any
    other HTTP error is raised again. *)
Definition add_teacher (srv : service) : M unit :=
  let course_id := "123456" in
  let teacher_email := "alice@example.edu" in
  let teacher := VDict [ ("userId", VStr teacher_email) ] in
  try_except_HttpError
    (teacher <- execute srv (TeachersCreate course_id teacher) ;;
     profile <- lift (py_get teacher "profile" VNone) ;;
     name <- lift (py_get profile "name" VNone) ;;
     fullName <- lift (py_get name "fullName" VNone) ;;
     py_print [PFmt "User %s was added as a teacher to the course with ID %s"
                    [fullName; VStr course_id]])
    (fun e content =>
       body <- lift (json_loads content) ;;
       error <- lift (py_get body "error" VNone) ;;
       code <- lift (py_get error "code" VNone) ;;
       if py_eq_int code 409
       then py_print [PFmt ("User " ++ dq ++ "{%s}" ++ dq ++ " is already a member of this course.")%string
                           [VStr teacher_email]]
       else raise e).

(** [add_student]: enrolls the caller in a course; a 409 is reported, any
    other HTTP error is raised again. *)
Definition add_student (srv : service) : M unit :=
  let course_id := "123456" in
  let enrollment_code := "abcdef" in
  let student := VDict [ ("userId", VStr "me") ] in
  try_except_HttpError
    (student <- execute srv (StudentsCreate course_id enrollment_code student) ;;
     profile <- lift (py_get student "profile" VNone) ;;
     name <- lift (py_get profile "name" VNone) ;;
     fullName <- lift (py_get name "fullName" VNone) ;;
     py_print [PFmt ("User {%s} was enrolled as a student in
                       the course with ID " ++ dq ++ "{%s}" ++ dq)%string
                    [fullName; VStr course_id]])
    (fun e content =>
       body <- lift (json_loads content) ;;
       error <- lift (py_get body "error" VNone) ;;
       code <- lift (py_get error "code" VNone) ;;
       if py_eq_int code 409
       then py_print [PVal (VStr "You are already a member of this course.")]
       else raise e).

(** [create_coursework]: creates an assignment. *)
Definition create_coursework (srv : service) : M unit :=
  let courseWork := VDict
    [ ("title", VStr "Ant colonies");
      ("description", VStr "Read the article about ant colonies
                                  and complete the quiz.");
      ("materials", VList
         [ VDict [ ("link", VDict [ ("url", VStr "http://example.com/ant-colonies") ]) ];
           VDict [ ("link", VDict [ ("url", VStr "http://example.com/ant-quiz") ]) ] ]);
      ("workType", VStr "ASSIGNMENT");
      ("state", VStr "PUBLISHED") ] in
  courseWork <- execute srv (CourseWorkCreate "123456" courseWork) ;;
  id <- lift (py_get courseWork "id" VNone) ;;
  py_print [PFmt "Assignment created with ID {%s}" [id]].

(** The report the three submission listings share, after the [heading]
    each prints. *)
Definition report_submissions (heading : string) (submissions : list value) : M unit :=
  match submissions with
  | [] => py_print [PVal (VStr "No student submissions found.")]
  | _ =>
      py_print [PVal (VStr heading)] ;;
      for_each submissions (fun submission =>
        id <- lift (py_get submission "id" VNone) ;;
        creationTime <- lift (py_get submission "creationTime" VNone) ;;
        py_print [PFmt "%s was submitted at %s" [id; creationTime]])
  end.

(** [list_submissions]: all student submissions of a coursework. *)
Definition list_submissions (fuel : nat) (srv : service) (w : world) : run unit * world :=
  then_report
    (list_loop fuel srv
       (fun page_token => StudentSubmissionsList page_token "123456" "654321" None)
       "studentSubmissions" [] VNone w)
    (report_submissions "Student Submissions:").

(** [list_student_submissions]: the submissions of one student for a
    coursework. *)
Definition list_student_submissions (fuel : nat) (srv : service) (w : world)
  : run unit * world :=
  then_report
    (list_loop fuel srv
       (fun page_token => StudentSubmissionsList page_token "123456" "123456" (Some "123456"))
       "studentSubmissions" [] VNone w)
    (report_submissions "Student Submissions:").

(** [list_all_submissions]: the submissions of one student across all
    coursework. *)
Definition list_all_submissions (fuel : nat) (srv : service) (w : world)
  : run unit * world :=
  then_report
    (list_loop fuel srv
       (fun page_token => StudentSubmissionsList page_token "123456" "-" (Some "123456"))
       "studentSubmissions" [] VNone w)
    (report_submissions "Complete list of student Submissions:").

(** ** Vocabulary of the statements *)

(** A response [carries] the items [more] under [key] and the next token
    [tok]: this is what one turn of the loop reads from it. *)
Definition page_carries (key : string) (response : value)
    (more : list value) (tok : value) : Prop :=
  (exists page, py_get response key (VList []) = Return page /\ py_iter page = Return more)
  /\ py_get response "nextPageToken" VNone = Return tok.

(** A page as a fake listing endpoint would build it: the items under
    [key], and the next token when there is one. *)
Definition make_page (key : string) (more : list value) (next : option string) : value :=
  VDict ((key, VList more)
         :: match next with
            | Some t => [("nextPageToken", VStr t)]
            | None => []
            end).

(** An error body [carries] the status [code]: it decodes to a dict whose
    ["error"] entry is a dict with that integer under ["code"]. *)
Definition carries_code (content : option value) (code : Z) : Prop :=
  exists body error,
    content = Some body
    /\ py_get body "error" VNone = Return error
    /\ py_get error "code" VNone = Return (VInt code).

(** The transport error the API client raises for a status [code]. *)
Definition http_error (code : Z) : exn :=
  HttpError (Some (VDict [("error", VDict [("code", VInt code)])])).

(** A service that answers the [n]-th call with the [n]-th entry of a
    script, whatever the request, and fails once the script is used up. *)
Definition scripted (script : list (result value)) : service :=
  fun history _ => nth (length history) script (Raise (OtherError "StopIteration")).

(** A service that answers every call the same way. *)
Definition always (answer : result value) : service := fun _ _ => answer.

(** The operations the module calls single-call. *)
Inductive single_call_op : Type :=
| OpCreateCourse
| OpGetCourse
| OpUpdateCourse
| OpPatchCourse
| OpAddAliasNew
| OpAddAliasExisting
| OpAddTeacher
| OpAddStudent
| OpCreateCoursework.

Definition run_op (op : single_call_op) : service -> M unit :=
  match op with
  | OpCreateCourse => create_course
  | OpGetCourse => get_course
  | OpUpdateCourse => update_course
  | OpPatchCourse => patch_course
  | OpAddAliasNew => add_alias_new
  | OpAddAliasExisting => add_alias_existing
  | OpAddTeacher => add_teacher
  | OpAddStudent => add_student
  | OpCreateCoursework => create_coursework
  end.

Definition is_alias_op (op : single_call_op) : bool :=
  match op with
  | OpAddAliasNew | OpAddAliasExisting => true
  | _ => false
  end.

(** The status codes a call-site is documented to intercept. *)
Definition intercepted (op : single_call_op) : list Z :=
  match op with
  | OpGetCourse => [404%Z]
  | OpAddTeacher | OpAddStudent => [409%Z]
  | _ => []
  end.

(** [op] raises again, unchanged, every transport error whose status code
    is not among [codes], when its first request fails with it. *)
Definition reraises_all_but (codes : list Z) (op : service -> M unit) : Prop :=
  forall (srv : service) (content : option value) (code : Z),
    carries_code content code ->
    ~ In code codes ->
    (forall req, srv [] req = Raise (HttpError content)) ->
    fst (op srv init_world) = Raise (HttpError content).

(** [op] lets every failure of its first request through, unchanged. *)
Definition propagates_all (op : service -> M unit) : Prop :=
  forall (srv : service) (e : exn),
    (forall req, srv [] req = Raise e) ->
    fst (op srv init_world) = Raise e.

(** [op] lets through every failure of its first request that is not an
    [HttpError]. *)
Definition propagates_foreign (op : service -> M unit) : Prop :=
  forall (srv : service) (e : exn),
    (forall content, e <> HttpError content) ->
    (forall req, srv [] req = Raise e) ->
    fst (op srv init_world) = Raise e.

(** [op] catches every [HttpError] of its first request: it prints the one
    line [message] and returns. *)
Definition swallows_http (message : string) (op : service -> M unit) : Prop :=
  forall (srv : service) (content : option value),
    (forall req, srv [] req = Raise (HttpError content)) ->
    exists req,
      op srv init_world = (Return tt, mkWorld [req] [[PVal (VStr message)]]).

(** A page of a listing as the loop sees it: the response, the items it
    carries and the next token it carries. *)
Record page : Type := Page {
  page_response : value;
  page_items : list value;
  page_next : value
}.

(** The entries of a record outside the two fields [update_course] sets. *)
Definition other_fields (d : list (string * value)) : list (string * value) :=
  filter (fun kv => negb (String.eqb (fst kv) "section" || String.eqb (fst kv) "room")) d.

(** The number of requests an operation has issued when it completes,
    started in a fresh world. *)
Definition requests_issued (op : single_call_op) (srv : service) : nat :=
  length (calls (snd (run_op op srv init_world))).

(** The reading of a listing page that would refuse a response without its
    items field: the listing fails instead of going on. *)
Definition missing_items_surface : Prop :=
  forall (fuel : nat) (srv : service) (d : list (string * value)),
    srv [] (courses_list_request VNone) = Return (VDict d) ->
    dict_get d "courses" = None ->
    exists e w, list_courses (S fuel) srv init_world = (Done (Raise e), w).

(** [p] records faithfully what its response carries under [key]. *)
Definition page_ok (key : string) (p : page) : Prop :=
  page_carries key (page_response p) (page_items p) (page_next p).

(** The world after one more request. *)
Definition after_call (w : world) (req : request) : world :=
  mkWorld (calls w ++ [req]) (stdout w).

(** Sample data for concrete runs: two course records, and a listing served
    as three pages in which a record comes back twice. *)
Definition biology : value := VDict [("name", VStr "Biology"); ("id", VStr "1")].
Definition algebra : value := VDict [("name", VStr "Algebra"); ("id", VStr "2")].

Definition sample_first_pages : list page :=
  [ Page (make_page "courses" [biology; algebra] (Some "t1")) [biology; algebra] (VStr "t1");
    Page (make_page "courses" [algebra] (Some "t2")) [algebra] (VStr "t2") ].

Definition sample_last_page : page :=
  Page (make_page "courses" [biology] None) [biology] VNone.

Definition sample_service : service :=
  scripted (map (fun p => Return (page_response p)) (sample_first_pages ++ [sample_last_page])).

(** A listing endpoint that hands out a next token on every page. *)
Definition endless_service : service :=
  always (Return (make_page "courses" [biology] (Some "again"))).

(** The propagation policy read as covering every single-call operation:
    each re-raises all transport errors but those its call-site is
    documented to intercept. *)
Definition only_enumerated_codes_intercepted : Prop :=
  forall op : single_call_op, reraises_all_but (intercepted op) (run_op op).

(** The one-shot policy read as a count: one request per invocation, for
    every single-call operation and every service. *)
Definition one_request_each : Prop :=
  forall (op : single_call_op) (srv : service), requests_issued op srv = 1.

(** ** Vocabulary of the further properties *)

(** Records are the values with a [get] method. *)
Definition is_record (o : value) : bool :=
  match o with
  | VDict _ => true
  | _ => false
  end.

(** [o.get(k)] read on a record: the entry, [None] when there is none. *)
Definition field (o : value) (k : string) : value :=
  match py_get o k VNone with
  | Return v => v
  | Raise _ => VNone
  end.

(** The line [list_courses] prints for one course. *)
Definition course_line (course : value) : list printed :=
  [PVal (field course "name"); PVal (field course "id")].

(** Everything [list_courses] prints for the courses it gathered. *)
Definition courses_output (courses : list value) : list (list printed) :=
  match courses with
  | [] => [[PVal (VStr "No courses found.")]]
  | _ => [PVal (VStr "Courses:")] :: map course_line courses
  end.

(** The line the submission listings print for one submission. *)
Definition submission_line (submission : value) : list printed :=
  [PFmt "%s was submitted at %s" [field submission "id"; field submission "creationTime"]].

(** Everything a submission listing prints, under its [heading]. *)
Definition submissions_output (heading : string) (submissions : list value)
  : list (list printed) :=
  match submissions with
  | [] => [[PVal (VStr "No student submissions found.")]]
  | _ => [PVal (VStr heading)] :: map submission_line submissions
  end.

(** Whether a record has an entry under [k]. *)
Definition dict_has (d : list (string * value)) (k : string) : bool :=
  match dict_get d k with
  | Some _ => true
  | None => false
  end.

(** The values [list.extend] cannot iterate over. *)
Definition not_iterable (o : value) : bool :=
  match o with
  | VNone | VBool _ | VInt _ | VFloat _ => true
  | _ => false
  end.

(** The values that [==] never finds equal to an integer. *)
Definition not_a_number (o : value) : bool :=
  match o with
  | VNone | VStr _ | VList _ | VDict _ => true
  | _ => false
  end.

(** A listing that serves two pages and fails on the third fetch. *)
Definition failing_service : service :=
  scripted [ Return (make_page "courses" [biology; algebra] (Some "t1"));
             Return (make_page "courses" [algebra] (Some "t2"));
             Raise (http_error 503) ].

(** A submission listing served as two pages. *)
Definition essay : value :=
  VDict [("id", VStr "s1"); ("creationTime", VStr "2018-01-01T00:00:00Z")].
Definition quiz : value := VDict [("id", VStr "s2")].

Definition submission_first_pages : list page :=
  [ Page (make_page "studentSubmissions" [essay] (Some "n1")) [essay] (VStr "n1") ].

Definition submission_last_page : page :=
  Page (make_page "studentSubmissions" [quiz] None) [quiz] VNone.

Definition submission_service : service :=
  scripted (map (fun p => Return (page_response p))
                (submission_first_pages ++ [submission_last_page])).

(** * Properties *)

(** ** Dicts *)

Lemma dict_get_set_same (d : list (string * value)) (k : string) (v : value) :
  dict_get (dict_set d k v) k = Some v.
Proof.
  induction d as [| [k' v'] d IH]; simpl.
  - now rewrite String.eqb_refl.
  - destruct (String.eqb k' k) eqn:E; simpl.
    + now rewrite String.eqb_refl.
    + now rewrite E.
Qed.

Lemma dict_get_set_other (d : list (string * value)) (k k' : string) (v : value) :
  k' <> k -> dict_get (dict_set d k v) k' = dict_get d k'.
Proof.
  intros Hne.
  assert (Hk : String.eqb k k' = false) by (apply String.eqb_neq; congruence).
  induction d as [| [k0 v0] d IH]; simpl.
  - now rewrite Hk.
  - destruct (String.eqb k0 k) eqn:E; simpl.
    + apply String.eqb_eq in E; subst k0. now rewrite Hk.
    + now rewrite IH.
Qed.

(** Setting [k] leaves the entries under every other key as they were, in
    the same order. *)
Lemma dict_set_filter (keep : string -> bool) (d : list (string * value))
    (k : string) (v : value) :
  keep k = false ->
  filter (fun kv => keep (fst kv)) (dict_set d k v) = filter (fun kv => keep (fst kv)) d.
Proof.
  intros Hk.
  induction d as [| [k0 v0] d IH]; simpl.
  - now rewrite Hk.
  - destruct (String.eqb k0 k) eqn:E; simpl.
    + apply String.eqb_eq in E; subst k0. now rewrite Hk.
    + now rewrite IH.
Qed.

(** ** The monad *)

Lemma bind_Return {A B} (c : M A) (k : A -> M B) (w w' : world) (a : A) :
  c w = (Return a, w') -> bind c k w = k a w'.
Proof. intros H. unfold bind. now rewrite H. Qed.

Lemma bind_Raise {A B} (c : M A) (k : A -> M B) (w w' : world) (e : exn) :
  c w = (Raise e, w') -> bind c k w = (Raise e, w').
Proof. intros H. unfold bind. now rewrite H. Qed.

Lemma execute_eq (srv : service) (req : request) (w : world) :
  execute srv req w = (srv (calls w) req, mkWorld (calls w ++ [req]) (stdout w)).
Proof. reflexivity. Qed.

(** ** [update_course] *)

(** C10. Whatever record the get request of [update_course] returns, the
    body then sent with the update request has section 'Period 3' and room
    '302', and agrees with the fetched record on every other field: same
    lookups, and the same entries in the same order. *)
Theorem update_course_body_frame :
  forall (srv : service) (d : list (string * value)),
    srv [] (CoursesGet "123456") = Return (VDict d) ->
    exists body,
      calls (snd (update_course srv init_world))
        = [CoursesGet "123456"; CoursesUpdate "123456" (VDict body)]
      /\ dict_get body "section" = Some (VStr "Period 3")
      /\ dict_get body "room" = Some (VStr "302")
      /\ (forall k, k <> "section" -> k <> "room" -> dict_get body k = dict_get d k)
      /\ other_fields body = other_fields d.
Proof.
  intros srv d Hget.
  exists (dict_set (dict_set d "section" (VStr "Period 3")) "room" (VStr "302")).
  repeat split.
  - unfold update_course, bind, execute, lift; cbn.
    rewrite Hget; cbn.
    destruct (srv [_] _) as [resp | e]; [| reflexivity].
    destruct (py_get resp "name" VNone); reflexivity.
  - rewrite dict_get_set_other by discriminate. apply dict_get_set_same.
  - apply dict_get_set_same.
  - intros k Hs Hr. now rewrite !dict_get_set_other by assumption.
  - unfold other_fields.
    rewrite (dict_set_filter (fun k => negb (String.eqb k "section" || String.eqb k "room")))
      by reflexivity.
    now rewrite (dict_set_filter (fun k => negb (String.eqb k "section" || String.eqb k "room")))
      by reflexivity.
Qed.

(** A fetched record with an id, a name and a room already set: the room is
    overwritten, the section is added, the id and the name pass through. *)
Lemma update_course_body_frame_witness :
  exists body,
    calls (snd (update_course
                  (always (Return (VDict [("id", VStr "123456"); ("room", VStr "101");
                                          ("name", VStr "Biology")])))
                  init_world))
      = [CoursesGet "123456"; CoursesUpdate "123456" (VDict body)]
    /\ dict_get body "section" = Some (VStr "Period 3")
    /\ dict_get body "room" = Some (VStr "302")
    /\ (forall k, k <> "section" -> k <> "room" ->
        dict_get body k
        = dict_get [("id", VStr "123456"); ("room", VStr "101"); ("name", VStr "Biology")] k)
    /\ other_fields body
       = other_fields [("id", VStr "123456"); ("room", VStr "101"); ("name", VStr "Biology")].
Proof.
  apply (update_course_body_frame
           (always (Return (VDict [("id", VStr "123456"); ("room", VStr "101");
                                   ("name", VStr "Biology")])))).
  reflexivity.
Defined.

(** ** Status codes at the call-sites *)

Lemma carries_code_http_error (code : Z) :
  carries_code (Some (VDict [("error", VDict [("code", VInt code)])])) code.
Proof.
  exists (VDict [("error", VDict [("code", VInt code)])]), (VDict [("code", VInt code)]).
  repeat split.
Qed.

Lemma py_eq_int_same (code : Z) : py_eq_int (VInt code) code = true.
Proof. apply Z.eqb_refl. Qed.

Lemma py_eq_int_other (code n : Z) : code <> n -> py_eq_int (VInt code) n = false.
Proof. intros H. now apply Z.eqb_neq. Qed.

(** Runs a method whose request raised [HttpError content], down to the
    comparison of the code the content carries. *)
Ltac enter_handler Hraise Hcode :=
  destruct Hcode as (body & error & -> & Hbody & Herror);
  unfold bind, execute, lift, try_except_HttpError, json_loads;
  cbn -[py_get py_eq_int String.append];
  rewrite Hraise; cbn -[py_get py_eq_int String.append];
  rewrite Hbody, Herror.

(** C3. When the get request of [get_course] raises an HTTP error, a
    carried code of 404 makes the call return normally after printing the
    'not found' line with the requested id, and any other carried code
    makes it raise that same error, with nothing printed. *)
Theorem get_course_404_recovered_else_reraised :
  forall (srv : service) (content : option value),
    srv [] (CoursesGet "123456") = Raise (HttpError content) ->
    (carries_code content 404 ->
     get_course srv init_world
     = (Return tt,
        mkWorld [CoursesGet "123456"]
          [[PVal (VStr ("Course with ID " ++ dq ++ "{%s}" ++ dq ++ " not found.")%string);
            PVal (VStr "123456")]]))
    /\ (forall code : Z,
        code <> 404%Z ->
        carries_code content code ->
        get_course srv init_world
        = (Raise (HttpError content), mkWorld [CoursesGet "123456"] [])).
Proof.
  intros srv content Hraise. split.
  - intros Hcode. unfold get_course. enter_handler Hraise Hcode.
    rewrite py_eq_int_same. reflexivity.
  - intros code Hne Hcode. unfold get_course. enter_handler Hraise Hcode.
    rewrite (py_eq_int_other code 404 Hne). reflexivity.
Qed.

(** A 404 is recovered and a 500 comes back to the caller. *)
Lemma get_course_404_recovered_else_reraised_witness :
  get_course (always (Raise (http_error 404))) init_world
  = (Return tt,
     mkWorld [CoursesGet "123456"]
       [[PVal (VStr ("Course with ID " ++ dq ++ "{%s}" ++ dq ++ " not found.")%string);
         PVal (VStr "123456")]])
  /\ get_course (always (Raise (http_error 500))) init_world
     = (Raise (http_error 500), mkWorld [CoursesGet "123456"] []).
Proof.
  split.
  - apply (proj1 (get_course_404_recovered_else_reraised
                    (always (Raise (http_error 404))) _ eq_refl)).
    apply carries_code_http_error.
  - apply (proj2 (get_course_404_recovered_else_reraised
                    (always (Raise (http_error 500))) _ eq_refl) 500%Z).
    + discriminate.
    + apply carries_code_http_error.
Defined.

(** C4. When the create request of [add_teacher] or [add_student] raises an
    HTTP error, a carried code of 409 makes the call return normally after
    printing the 'already a member' line, and a carried code of 500 makes it
    raise that same error (as does every carried code other than 409). *)
Theorem enrollment_409_recovered_else_reraised :
  forall (srv : service) (content : option value),
    (forall req, srv [] req = Raise (HttpError content)) ->
    (carries_code content 409 ->
     add_teacher srv init_world
     = (Return tt,
        mkWorld [TeachersCreate "123456" (VDict [("userId", VStr "alice@example.edu")])]
          [[PFmt ("User " ++ dq ++ "{%s}" ++ dq ++ " is already a member of this course.")%string
                 [VStr "alice@example.edu"]]])
     /\ add_student srv init_world
        = (Return tt,
           mkWorld [StudentsCreate "123456" "abcdef" (VDict [("userId", VStr "me")])]
             [[PVal (VStr "You are already a member of this course.")]]))
    /\ (forall code : Z,
        code <> 409%Z ->
        carries_code content code ->
        add_teacher srv init_world
        = (Raise (HttpError content),
           mkWorld [TeachersCreate "123456" (VDict [("userId", VStr "alice@example.edu")])] [])
        /\ add_student srv init_world
           = (Raise (HttpError content),
              mkWorld [StudentsCreate "123456" "abcdef" (VDict [("userId", VStr "me")])] []))
    /\ (carries_code content 500 ->
        fst (add_teacher srv init_world) = Raise (HttpError content)
        /\ fst (add_student srv init_world) = Raise (HttpError content)).
Proof.
  intros srv content Hraise.
  assert (Hother : forall code : Z,
             code <> 409%Z ->
             carries_code content code ->
             add_teacher srv init_world
             = (Raise (HttpError content),
                mkWorld [TeachersCreate "123456" (VDict [("userId", VStr "alice@example.edu")])] [])
             /\ add_student srv init_world
                = (Raise (HttpError content),
                   mkWorld [StudentsCreate "123456" "abcdef" (VDict [("userId", VStr "me")])] [])).
  { intros code Hne Hcode. split.
    - unfold add_teacher. pose proof (Hraise (TeachersCreate "123456"
        (VDict [("userId", VStr "alice@example.edu")]))) as Hr.
      enter_handler Hr Hcode. rewrite (py_eq_int_other code 409 Hne). reflexivity.
    - unfold add_student. pose proof (Hraise (StudentsCreate "123456" "abcdef"
        (VDict [("userId", VStr "me")]))) as Hr.
      enter_handler Hr Hcode. rewrite (py_eq_int_other code 409 Hne). reflexivity. }
  split; [| split].
  - intros Hcode. split.
    + unfold add_teacher. pose proof (Hraise (TeachersCreate "123456"
        (VDict [("userId", VStr "alice@example.edu")]))) as Hr.
      enter_handler Hr Hcode. rewrite py_eq_int_same. reflexivity.
    + unfold add_student. pose proof (Hraise (StudentsCreate "123456" "abcdef"
        (VDict [("userId", VStr "me")]))) as Hr.
      enter_handler Hr Hcode. rewrite py_eq_int_same. reflexivity.
  - exact Hother.
  - intros Hcode.
    destruct (Hother 500%Z ltac:(discriminate) Hcode) as [Ht Hs].
    now rewrite Ht, Hs.
Qed.

(** A 409 on either enrollment is recovered. *)
Lemma enrollment_409_recovered_else_reraised_witness :
  add_teacher (always (Raise (http_error 409))) init_world
  = (Return tt,
     mkWorld [TeachersCreate "123456" (VDict [("userId", VStr "alice@example.edu")])]
       [[PFmt ("User " ++ dq ++ "{%s}" ++ dq ++ " is already a member of this course.")%string
              [VStr "alice@example.edu"]]])
  /\ add_student (always (Raise (http_error 409))) init_world
     = (Return tt,
        mkWorld [StudentsCreate "123456" "abcdef" (VDict [("userId", VStr "me")])]
          [[PVal (VStr "You are already a member of this course.")]]).
Proof.
  apply (proj1 (enrollment_409_recovered_else_reraised
                  (always (Raise (http_error 409))) _ (fun _ => eq_refl))).
  apply carries_code_http_error.
Defined.

(** ** The pagination loop *)

Lemma page_carries_make_page (key : string) (more : list value) (next : option string) :
  key <> "nextPageToken" ->
  page_carries key (make_page key more next)
    more (match next with Some t => VStr t | None => VNone end).
Proof.
  intros Hkey. unfold page_carries, make_page, py_get.
  cbn [dict_get]. rewrite String.eqb_refl.
  apply String.eqb_neq in Hkey. rewrite Hkey.
  split.
  - exists (VList more). split; reflexivity.
  - destruct next; reflexivity.
Qed.

(** One turn on a well-formed page: the request is logged, the items are
    appended, and the loop goes on exactly when the token read is truthy. *)
Lemma list_loop_step (srv : service) (mk : value -> request) (key : string)
    (fuel : nat) (items : list value) (tok : value) (w : world)
    (response : value) (more : list value) (tok' : value) :
  srv (calls w) (mk tok) = Return response ->
  page_carries key response more tok' ->
  list_loop (S fuel) srv mk key items tok w
  = if truthy tok'
    then list_loop fuel srv mk key (items ++ more) tok' (after_call w (mk tok))
    else (Done (Return (items ++ more)), after_call w (mk tok)).
Proof.
  intros Hsrv [(page & Hpage & Hiter) Hnext].
  cbn [list_loop]. unfold loop_body, bind, execute, lift, ret.
  rewrite Hsrv, Hpage, Hiter, Hnext. reflexivity.
Qed.

(** A failed fetch ends the loop with that failure, whatever was gathered. *)
Lemma list_loop_raise (srv : service) (mk : value -> request) (key : string)
    (fuel : nat) (items : list value) (tok : value) (w : world) (e : exn) :
  srv (calls w) (mk tok) = Raise e ->
  list_loop (S fuel) srv mk key items tok w = (Done (Raise e), after_call w (mk tok)).
Proof.
  intros Hsrv. cbn [list_loop]. unfold loop_body, bind, execute.
  rewrite Hsrv. reflexivity.
Qed.

(** The loop only ever adds requests to the log, and each turn starts with
    one. *)
Lemma list_loop_calls (srv : service) (mk : value -> request) (key : string) :
  forall (fuel : nat) (items : list value) (tok : value) (w : world),
    exists rest,
      calls (snd (list_loop (S fuel) srv mk key items tok w)) = calls w ++ mk tok :: rest.
Proof.
  induction fuel as [| fuel IH]; intros items tok w.
  - cbn [list_loop]. unfold loop_body, bind, execute, lift, ret.
    destruct (srv (calls w) (mk tok)) as [response | e]; [| exists []; reflexivity].
    destruct (py_get response key (VList [])) as [pg | e]; [| exists []; reflexivity].
    destruct (py_iter pg) as [more | e]; [| exists []; reflexivity].
    destruct (py_get response "nextPageToken" VNone) as [tok' | e]; [| exists []; reflexivity].
    destruct (truthy tok'); exists []; reflexivity.
  - remember (S fuel) as n eqn:Hn.
    cbn [list_loop]. unfold loop_body, bind, execute, lift, ret.
    destruct (srv (calls w) (mk tok)) as [response | e]; [| exists []; reflexivity].
    destruct (py_get response key (VList [])) as [pg | e]; [| exists []; reflexivity].
    destruct (py_iter pg) as [more | e]; [| exists []; reflexivity].
    destruct (py_get response "nextPageToken" VNone) as [tok' | e]; [| exists []; reflexivity].
    destruct (truthy tok'); [| exists []; reflexivity].
    subst n.
    destruct (IH (items ++ more) tok' (mkWorld (calls w ++ [mk tok]) (stdout w)))
      as [rest Hrest].
    exists (mk tok' :: rest). rewrite Hrest. cbn [calls].
    now rewrite <- app_assoc.
Qed.

(** The loop over a scripted sequence of pages, from any state. *)
Lemma list_loop_pages (srv : service) (mk : value -> request) (key : string) :
  forall (ps : list page) (pn : page) (fuel : nat)
         (items : list value) (tok : value) (w : world),
    Forall (page_ok key) (ps ++ [pn]) ->
    Forall (fun p => truthy (page_next p) = true) ps ->
    truthy (page_next pn) = false ->
    (forall i p, nth_error (ps ++ [pn]) i = Some p ->
       forall history req,
         length history = length (calls w) + i ->
         srv history req = Return (page_response p)) ->
    length ps < fuel ->
    list_loop fuel srv mk key items tok w
    = (Done (Return (items ++ concat (map page_items (ps ++ [pn])))),
       mkWorld (calls w ++ map mk (tok :: map page_next ps)) (stdout w)).
Proof.
  induction ps as [| p ps IH]; intros pn fuel items tok w Hok Hmore Hlast Hsrv Hfuel.
  - destruct fuel as [| fuel]; [inversion Hfuel |].
    cbn [app] in Hok. apply Forall_inv in Hok.
    rewrite (list_loop_step _ _ _ _ _ _ _ (page_response pn) (page_items pn) (page_next pn)).
    + rewrite Hlast. cbn. now rewrite app_nil_r.
    + apply (Hsrv 0 pn); [reflexivity | lia].
    + exact Hok.
  - destruct fuel as [| fuel]; [inversion Hfuel |].
    cbn [app] in Hok.
    pose proof (Forall_inv Hok) as Hp. apply Forall_inv_tail in Hok.
    pose proof (Forall_inv Hmore) as Htok. apply Forall_inv_tail in Hmore.
    rewrite (list_loop_step _ _ _ _ _ _ _ (page_response p) (page_items p) (page_next p)).
    + rewrite Htok.
      rewrite (IH pn fuel (items ++ page_items p) (page_next p) (after_call w (mk tok)));
        try assumption.
      * cbn. now rewrite <- !app_assoc.
      * intros i q Hq history req Hlen. apply (Hsrv (S i) q); [exact Hq |].
        rewrite Hlen. cbn. rewrite length_app. cbn. lia.
      * cbn in Hfuel. lia.
    + apply (Hsrv 0 p); [reflexivity | lia].
    + exact Hp.
Qed.

(** C1. When the fetches of a listing are answered, in order, by pages
    P1..Pn where every page but the last carries a truthy next token and
    the last carries none, the loop (given enough fuel) returns the items
    of the pages concatenated in the order served, nothing reordered or
    dropped, after one request per page, each sent with the token of the
    page before. *)
Theorem list_loop_concatenates_pages :
  forall (srv : service) (mk : value -> request) (key : string)
         (ps : list page) (pn : page) (fuel : nat),
    Forall (page_ok key) (ps ++ [pn]) ->
    Forall (fun p => truthy (page_next p) = true) ps ->
    truthy (page_next pn) = false ->
    (forall i p, nth_error (ps ++ [pn]) i = Some p ->
       forall history req,
         length history = i -> srv history req = Return (page_response p)) ->
    length ps < fuel ->
    list_loop fuel srv mk key [] VNone init_world
    = (Done (Return (concat (map page_items (ps ++ [pn])))),
       mkWorld (map mk (VNone :: map page_next ps)) []).
Proof.
  intros srv mk key ps pn fuel Hok Hmore Hlast Hsrv Hfuel.
  now rewrite (list_loop_pages srv mk key ps pn fuel [] VNone init_world).
Qed.

(** Three pages, with records served twice: all four items come back, in
    the order served, duplicates kept. *)
Lemma list_loop_concatenates_pages_witness :
  list_loop 3 sample_service courses_list_request "courses" [] VNone init_world
  = (Done (Return [biology; algebra; algebra; biology]),
     mkWorld [CoursesList VNone 100; CoursesList (VStr "t1") 100; CoursesList (VStr "t2") 100]
             []).
Proof.
  apply (list_loop_concatenates_pages sample_service courses_list_request "courses"
           sample_first_pages sample_last_page 3).
  - repeat constructor; apply (page_carries_make_page "courses"); discriminate.
  - repeat constructor.
  - reflexivity.
  - intros i p Hp history req Hlen. unfold sample_service, scripted. rewrite Hlen.
    destruct i as [| [| [| i]]]; cbn in Hp.
    + injection Hp as <-. reflexivity.
    + injection Hp as <-. reflexivity.
    + injection Hp as <-. reflexivity.
    + destruct i; discriminate Hp.
  - cbn. lia.
Defined.

(** C7. When the first page fetched carries no next token, the loop returns
    exactly that page's items after exactly one request; so a first page of
    two items and no token gives a two-item result after one request. *)
Theorem single_page_single_fetch :
  forall (srv : service) (fuel : nat),
    (forall (response : value) (more : list value) (tok : value),
        srv [] (courses_list_request VNone) = Return response ->
        page_carries "courses" response more tok ->
        truthy tok = false ->
        list_loop (S fuel) srv courses_list_request "courses" [] VNone init_world
        = (Done (Return more), mkWorld [CoursesList VNone 100] []))
    /\ (forall a b : value,
        srv [] (courses_list_request VNone) = Return (make_page "courses" [a; b] None) ->
        list_loop (S fuel) srv courses_list_request "courses" [] VNone init_world
        = (Done (Return [a; b]), mkWorld [CoursesList VNone 100] [])).
Proof.
  intros srv fuel.
  assert (Hgen : forall response more tok,
             srv [] (courses_list_request VNone) = Return response ->
             page_carries "courses" response more tok ->
             truthy tok = false ->
             list_loop (S fuel) srv courses_list_request "courses" [] VNone init_world
             = (Done (Return more), mkWorld [CoursesList VNone 100] [])).
  { intros response more tok Hsrv Hpage Hlast.
    rewrite (list_loop_step srv _ _ fuel [] VNone init_world response more tok Hsrv Hpage).
    now rewrite Hlast. }
  split; [exact Hgen |].
  intros a b Hsrv.
  apply (Hgen _ [a; b] VNone Hsrv).
  - apply (page_carries_make_page "courses" [a; b] None). discriminate.
  - reflexivity.
Qed.

(** One page of two courses and no token. *)
Lemma single_page_single_fetch_witness :
  list_loop 1 (always (Return (make_page "courses" [biology; algebra] None)))
    courses_list_request "courses" [] VNone init_world
  = (Done (Return [biology; algebra]), mkWorld [CoursesList VNone 100] []).
Proof.
  apply (proj2 (single_page_single_fetch
                  (always (Return (make_page "courses" [biology; algebra] None))) 0)).
  reflexivity.
Defined.

(** What a listing does once its loop has returned [items]. *)
Lemma then_report_Return {A} (items : list value) (w : world) (report : list value -> M A) :
  then_report (Done (Return items), w) report
  = (Done (fst (report items w)), snd (report items w)).
Proof. cbn. now destruct (report items w). Qed.

(** C8. When the one page fetched carries zero items and no next token, the
    accumulated result is the empty list and the listing prints its 'none
    found' line and nothing else: 'No courses found.' for courses, 'No
    student submissions found.' for the three submission listings. *)
Theorem empty_listing_reports_none_found :
  forall (srv : service) (response : value) (tok : value) (fuel : nat),
    (forall req, srv [] req = Return response) ->
    truthy tok = false ->
    (page_carries "courses" response [] tok ->
     list_loop (S fuel) srv courses_list_request "courses" [] VNone init_world
     = (Done (Return []), mkWorld [CoursesList VNone 100] [])
     /\ list_courses (S fuel) srv init_world
        = (Done (Return tt),
           mkWorld [CoursesList VNone 100] [[PVal (VStr "No courses found.")]]))
    /\ (page_carries "studentSubmissions" response [] tok ->
        list_submissions (S fuel) srv init_world
        = (Done (Return tt),
           mkWorld [StudentSubmissionsList VNone "123456" "654321" None]
                   [[PVal (VStr "No student submissions found.")]])
        /\ list_student_submissions (S fuel) srv init_world
           = (Done (Return tt),
              mkWorld [StudentSubmissionsList VNone "123456" "123456" (Some "123456")]
                      [[PVal (VStr "No student submissions found.")]])
        /\ list_all_submissions (S fuel) srv init_world
           = (Done (Return tt),
              mkWorld [StudentSubmissionsList VNone "123456" "-" (Some "123456")]
                      [[PVal (VStr "No student submissions found.")]])).
Proof.
  intros srv response tok fuel Hsrv Hlast.
  assert (Hloop : forall mk key,
             page_carries key response [] tok ->
             list_loop (S fuel) srv mk key [] VNone init_world
             = (Done (Return []), mkWorld [mk VNone] [])).
  { intros mk key Hpage.
    rewrite (list_loop_step srv mk key fuel [] VNone init_world response [] tok (Hsrv _) Hpage).
    now rewrite Hlast. }
  split; intros Hpage.
  - split; [exact (Hloop _ _ Hpage) |].
    unfold list_courses. now rewrite (Hloop _ _ Hpage).
  - unfold list_submissions, list_student_submissions, list_all_submissions.
    rewrite !(Hloop _ _ Hpage). repeat split.
Qed.

(** An empty page with no token. *)
Lemma empty_listing_reports_none_found_witness :
  list_loop 1 (always (Return (make_page "courses" [] None)))
    courses_list_request "courses" [] VNone init_world
  = (Done (Return []), mkWorld [CoursesList VNone 100] [])
  /\ list_courses 1 (always (Return (make_page "courses" [] None))) init_world
     = (Done (Return tt),
        mkWorld [CoursesList VNone 100] [[PVal (VStr "No courses found.")]]).
Proof.
  apply (proj1 (empty_listing_reports_none_found
                  (always (Return (make_page "courses" [] None)))
                  (make_page "courses" [] None) VNone 0 (fun _ => eq_refl) eq_refl)).
  apply (page_carries_make_page "courses" [] None). discriminate.
Defined.

(** A normal return of the loop comes right after a fetch whose page
    carried a falsy next token. *)
Lemma list_loop_return_inv (srv : service) (mk : value -> request) (key : string) :
  forall (fuel : nat) (items : list value) (tok : value) (w : world)
         (out : list value) (w' : world),
    list_loop fuel srv mk key items tok w = (Done (Return out), w') ->
    exists history req response tok',
      calls w' = history ++ [req]
      /\ srv history req = Return response
      /\ py_get response "nextPageToken" VNone = Return tok'
      /\ truthy tok' = false.
Proof.
  induction fuel as [| fuel IH]; intros items tok w out w' Hrun.
  - discriminate Hrun.
  - cbn [list_loop] in Hrun. unfold loop_body, bind, execute, lift, ret in Hrun.
    destruct (srv (calls w) (mk tok)) as [response | e] eqn:Hsrv; [| discriminate Hrun].
    destruct (py_get response key (VList [])) as [pg | e]; [| discriminate Hrun].
    destruct (py_iter pg) as [more | e]; [| discriminate Hrun].
    destruct (py_get response "nextPageToken" VNone) as [tok' | e] eqn:Hnext;
      [| discriminate Hrun].
    destruct (truthy tok') eqn:Htok.
    + exact (IH _ _ _ _ _ Hrun).
    + injection Hrun as _ <-.
      exists (calls w), (mk tok), response, tok'. repeat split; assumption.
Qed.

(** Against a service that hands out a truthy token on every page, every
    unit of fuel is spent on one more fetch. *)
Lemma list_loop_endless (srv : service) (mk : value -> request) (key : string) :
  (forall history req, exists response more tok',
      srv history req = Return response
      /\ page_carries key response more tok'
      /\ truthy tok' = true) ->
  forall (fuel : nat) (items : list value) (tok : value) (w : world),
    fst (list_loop fuel srv mk key items tok w) = OutOfFuel
    /\ length (calls (snd (list_loop fuel srv mk key items tok w)))
       = length (calls w) + fuel.
Proof.
  intros Hendless.
  induction fuel as [| fuel IH]; intros items tok w.
  - cbn. split; [reflexivity | lia].
  - destruct (Hendless (calls w) (mk tok)) as (response & more & tok' & Hsrv & Hpage & Htok).
    rewrite (list_loop_step srv mk key fuel items tok w response more tok' Hsrv Hpage).
    rewrite Htok.
    destruct (IH (items ++ more) tok' (after_call w (mk tok))) as [Hout Hlen].
    split; [exact Hout |].
    rewrite Hlen. cbn. rewrite length_app. cbn. lia.
Qed.

(** C5. The pagination loop starts with a fetch, so at least one request
    is made.  After a page is read, the loop returns if the next token it
    carries is falsy (absent, or the empty string) and fetches again if it
    is truthy; a normal return always follows a page with a falsy token.
    Nothing else bounds the loop: against a service that carries a truthy
    token on every page, no amount of fuel lets it finish, and it has made
    as many requests as it was given fuel. *)
Theorem list_loop_stops_only_without_token :
  forall (srv : service) (mk : value -> request) (key : string),
    (forall fuel items tok w, exists rest,
        calls (snd (list_loop (S fuel) srv mk key items tok w)) = calls w ++ mk tok :: rest)
    /\ (forall fuel items tok w response more tok',
        srv (calls w) (mk tok) = Return response ->
        page_carries key response more tok' ->
        (truthy tok' = false ->
         list_loop (S fuel) srv mk key items tok w
         = (Done (Return (items ++ more)), after_call w (mk tok)))
        /\ (truthy tok' = true ->
            list_loop (S fuel) srv mk key items tok w
            = list_loop fuel srv mk key (items ++ more) tok' (after_call w (mk tok))))
    /\ (truthy VNone = false /\ forall s, truthy (VStr s) = false <-> s = EmptyString)
    /\ (forall fuel items tok w out w',
        list_loop fuel srv mk key items tok w = (Done (Return out), w') ->
        exists history req response tok',
          calls w' = history ++ [req]
          /\ srv history req = Return response
          /\ py_get response "nextPageToken" VNone = Return tok'
          /\ truthy tok' = false)
    /\ ((forall history req, exists response more tok',
            srv history req = Return response
            /\ page_carries key response more tok'
            /\ truthy tok' = true) ->
        forall fuel items tok w,
          fst (list_loop fuel srv mk key items tok w) = OutOfFuel
          /\ length (calls (snd (list_loop fuel srv mk key items tok w)))
             = length (calls w) + fuel).
Proof.
  intros srv mk key. repeat apply conj.
  - apply list_loop_calls.
  - intros fuel items tok w response more tok' Hsrv Hpage.
    rewrite (list_loop_step srv mk key fuel items tok w response more tok' Hsrv Hpage).
    split; intros ->; reflexivity.
  - reflexivity.
  - intros s. cbn [truthy]. rewrite negb_false_iff. apply String.eqb_eq.
  - apply list_loop_return_inv.
  - apply list_loop_endless.
Qed.

(** Fifty units of fuel against the endless service: fifty requests, and
    the loop is still running. *)
Lemma list_loop_stops_only_without_token_witness :
  fst (list_loop 50 endless_service courses_list_request "courses" [] VNone init_world)
  = OutOfFuel
  /\ length (calls (snd (list_loop 50 endless_service courses_list_request "courses"
                           [] VNone init_world)))
     = length (calls init_world) + 50.
Proof.
  apply (proj2 (proj2 (proj2 (proj2
           (list_loop_stops_only_without_token endless_service courses_list_request
              "courses"))))).
  intros history req.
  exists (make_page "courses" [biology] (Some "again")), [biology], (VStr "again").
  split; [reflexivity | split; [| reflexivity]].
  apply (page_carries_make_page "courses" [biology] (Some "again")). discriminate.
Defined.

(** ** Which failures reach the caller *)

Lemma not_In_singleton (code n : Z) : ~ In code [n] -> code <> n.
Proof. intros Hnot ->. apply Hnot. now left. Qed.

(** Every operation that is not an alias creation re-raises the transport
    errors outside its documented codes. *)
Lemma non_alias_reraises (op : single_call_op) :
  is_alias_op op = false -> reraises_all_but (intercepted op) (run_op op).
Proof.
  intros Hop srv content code Hcode Hnot Hraise.
  destruct op; try discriminate Hop; cbn [run_op intercepted] in *.
  - unfold create_course, bind, execute; cbn. now rewrite Hraise.
  - apply not_In_singleton in Hnot.
    pose proof (Hraise (CoursesGet "123456")) as Hr.
    unfold get_course. enter_handler Hr Hcode.
    now rewrite (py_eq_int_other code 404 Hnot).
  - unfold update_course, bind, execute; cbn. now rewrite Hraise.
  - unfold patch_course, bind, execute; cbn. now rewrite Hraise.
  - apply not_In_singleton in Hnot.
    pose proof (Hraise (TeachersCreate "123456"
                          (VDict [("userId", VStr "alice@example.edu")]))) as Hr.
    unfold add_teacher. enter_handler Hr Hcode.
    now rewrite (py_eq_int_other code 409 Hnot).
  - apply not_In_singleton in Hnot.
    pose proof (Hraise (StudentsCreate "123456" "abcdef" (VDict [("userId", VStr "me")])))
      as Hr.
    unfold add_student. enter_handler Hr Hcode.
    now rewrite (py_eq_int_other code 409 Hnot).
  - unfold create_coursework, bind, execute; cbn. now rewrite Hraise.
Qed.

(** No handler of the module catches anything but [HttpError]. *)
Lemma every_op_propagates_foreign (op : single_call_op) :
  propagates_foreign (run_op op).
Proof.
  intros srv e Hforeign Hraise.
  destruct op; cbn [run_op];
    unfold create_course, get_course, update_course, patch_course, add_alias_new,
           add_alias_existing, add_teacher, add_student, create_coursework,
           try_except_HttpError, bind, execute;
    cbn; rewrite Hraise;
    try reflexivity;
    (destruct e as [content | | | |]; [now destruct (Hforeign content) | reflexivity ..]).
Qed.

Lemma alias_handlers_swallow :
  swallows_http "Course Creation Failed" add_alias_new
  /\ swallows_http "Alias Creation Failed" add_alias_existing.
Proof.
  split; intros srv content Hraise; eexists;
    unfold add_alias_new, add_alias_existing, try_except_HttpError, bind, execute;
    cbn; rewrite Hraise; reflexivity.
Qed.

(** C2, as the code has it. [get_course] intercepts only a carried 404 and
    the enrollment creations only a carried 409; these and the operations
    without a handler (create, update at either request, patch, create
    coursework, every turn of a listing loop) raise every other transport
    error again unchanged, and no operation catches a failure that is not
    an HTTP error.  The two alias creations are the exception: whatever the
    HTTP error, they print their 'Failed' line and return. *)
Theorem only_alias_creation_swallows :
  (forall op, is_alias_op op = false -> reraises_all_but (intercepted op) (run_op op))
  /\ (forall op, intercepted op = [] -> is_alias_op op = false -> propagates_all (run_op op))
  /\ (forall op, propagates_foreign (run_op op))
  /\ (forall srv d e,
        srv [] (CoursesGet "123456") = Return (VDict d) ->
        (forall req, srv [CoursesGet "123456"] req = Raise e) ->
        fst (update_course srv init_world) = Raise e)
  /\ (forall srv mk key fuel items tok w e,
        srv (calls w) (mk tok) = Raise e ->
        list_loop (S fuel) srv mk key items tok w = (Done (Raise e), after_call w (mk tok)))
  /\ swallows_http "Course Creation Failed" add_alias_new
  /\ swallows_http "Alias Creation Failed" add_alias_existing.
Proof.
  split; [exact non_alias_reraises |].
  split.
  { intros op Hnone Hop srv e Hraise.
    destruct op; try discriminate Hop; try discriminate Hnone; cbn [run_op];
      unfold create_course, update_course, patch_course, create_coursework, bind, execute;
      cbn; now rewrite Hraise. }
  split; [exact every_op_propagates_foreign |].
  split.
  { intros srv d e Hget Hput.
    unfold update_course, bind, execute, lift; cbn.
    rewrite Hget; cbn. now rewrite Hput. }
  split; [exact list_loop_raise |].
  exact alias_handlers_swallow.
Qed.

(** A 500 on the get request of [get_course] comes back to the caller. *)
Lemma only_alias_creation_swallows_witness :
  fst (run_op OpGetCourse (always (Raise (http_error 500))) init_world)
  = Raise (http_error 500).
Proof.
  apply (proj1 only_alias_creation_swallows OpGetCourse eq_refl
           (always (Raise (http_error 500))) _ 500%Z).
  - apply carries_code_http_error.
  - cbn. intros [H | []]. discriminate H.
  - reflexivity.
Defined.

(** C2, as stated, fails on alias creation: a 500 raised by the create
    request of [add_alias_new] is caught, reported and not raised again. *)
Lemma alias_creation_swallows_500 :
  add_alias_new (always (Raise (http_error 500))) init_world
  = (Return tt,
     mkWorld
       [CoursesCreate
          (VDict [("id", VStr "d:school_math_101"); ("name", VStr "Math 101");
                  ("section", VStr "Period 2"); ("description", VStr "Course Description");
                  ("room", VStr "301"); ("ownerId", VStr "me")])]
       [[PVal (VStr "Course Creation Failed")]])
  /\ ~ only_enumerated_codes_intercepted.
Proof.
  split; [reflexivity |].
  intros Hall.
  specialize (Hall OpAddAliasNew (always (Raise (http_error 500))) _ 500%Z
                (carries_code_http_error 500) (fun H => H) (fun _ => eq_refl)).
  discriminate Hall.
Qed.

(** ** Requests issued and lines printed *)

(** Splits on whatever the run is stuck on: an answer of the service, a
    lookup, a comparison. *)
Ltac split_run :=
  repeat match goal with
         | |- context [match ?x with _ => _ end] =>
             lazymatch x with
             | context [match _ with _ => _ end] => fail
             | _ => destruct x eqn:?; cbn
             end
         end.

Ltac unfold_ops :=
  unfold requests_issued; cbn [run_op];
  unfold create_course, get_course, update_course, patch_course, add_alias_new,
         add_alias_existing, add_teacher, add_student, create_coursework,
         try_except_HttpError, bind, execute, lift, raise, ret, py_print, json_loads;
  cbn.

Lemma non_update_one_request (op : single_call_op) (srv : service) :
  op <> OpUpdateCourse -> requests_issued op srv = 1.
Proof.
  intros Hop. destruct op; try (now destruct Hop); unfold_ops; split_run; reflexivity.
Qed.

Lemma update_requests (srv : service) :
  requests_issued OpUpdateCourse srv
  = match srv [] (CoursesGet "123456") with
    | Return (VDict _) => 2
    | _ => 1
    end.
Proof.
  unfold_ops.
  destruct (srv [] (CoursesGet "123456")) as [course | e]; [| reflexivity].
  destruct course; cbn; try reflexivity.
  split_run; reflexivity.
Qed.

Lemma non_alias_prints_once (op : single_call_op) (srv : service) :
  is_alias_op op = false ->
  fst (run_op op srv init_world) = Return tt ->
  length (stdout (snd (run_op op srv init_world))) = 1.
Proof.
  intros Hop. destruct op; try discriminate Hop; unfold_ops; split_run;
    intros Hret; try discriminate Hret; reflexivity.
Qed.

Lemma alias_silent_on_success (op : single_call_op) (srv : service) (response : value) :
  is_alias_op op = true ->
  (forall req, srv [] req = Return response) ->
  exists req, run_op op srv init_world = (Return tt, mkWorld [req] []).
Proof.
  intros Hop Hsrv. destruct op; try discriminate Hop; eexists; unfold_ops;
    rewrite Hsrv; reflexivity.
Qed.

(** C6, as the code has it. Every single-call operation other than
    [update_course] issues exactly one request per invocation, whatever the
    service answers; [update_course] issues two, the get and then the
    update, when the get returns a record, and only the get otherwise.
    Nothing is retried.  An operation that returns normally has printed
    exactly one line, except the two alias creations, which print nothing
    when their request succeeds. *)
Theorem single_call_requests_and_reports :
  forall (op : single_call_op) (srv : service),
    (op <> OpUpdateCourse -> requests_issued op srv = 1)
    /\ (op = OpUpdateCourse ->
        requests_issued op srv
        = match srv [] (CoursesGet "123456") with
          | Return (VDict _) => 2
          | _ => 1
          end)
    /\ (is_alias_op op = false ->
        fst (run_op op srv init_world) = Return tt ->
        length (stdout (snd (run_op op srv init_world))) = 1)
    /\ (is_alias_op op = true ->
        forall response,
          (forall req, srv [] req = Return response) ->
          exists req, run_op op srv init_world = (Return tt, mkWorld [req] [])).
Proof.
  intros op srv. split; [| split; [| split]].
  - apply non_update_one_request.
  - intros ->. apply update_requests.
  - apply non_alias_prints_once.
  - intros Hop response. now apply alias_silent_on_success.
Qed.

(** Creating a course: one request, one line. *)
Lemma single_call_requests_and_reports_witness :
  requests_issued OpCreateCourse (always (Return biology)) = 1
  /\ length (stdout (snd (run_op OpCreateCourse (always (Return biology)) init_world))) = 1.
Proof.
  split.
  - apply (proj1 (single_call_requests_and_reports OpCreateCourse (always (Return biology)))).
    discriminate.
  - apply (proj1 (proj2 (proj2
             (single_call_requests_and_reports OpCreateCourse (always (Return biology)))))).
    + reflexivity.
    + reflexivity.
Defined.

(** C6, as stated, fails on [update_course]: with a service that returns a
    record, one invocation issues a get and then an update. *)
Lemma update_course_issues_two_requests :
  calls (snd (update_course (always (Return biology)) init_world))
  = [CoursesGet "123456";
     CoursesUpdate "123456"
       (VDict [("name", VStr "Biology"); ("id", VStr "1");
               ("section", VStr "Period 3"); ("room", VStr "302")])]
  /\ requests_issued OpUpdateCourse (always (Return biology)) = 2
  /\ ~ one_request_each.
Proof.
  split; [reflexivity | split; [reflexivity |]].
  intros Hall. specialize (Hall OpUpdateCourse (always (Return biology))).
  discriminate Hall.
Qed.

(** ** Responses with missing fields *)

(** A page without its items field carries no items. *)
Lemma missing_items_carry_nothing (key : string) (d : list (string * value)) :
  dict_get d key = None ->
  page_carries key (VDict d) []
    (match dict_get d "nextPageToken" with Some t => t | None => VNone end).
Proof.
  intros Hmissing. split; [| reflexivity].
  exists (VList []). cbn. now rewrite Hmissing.
Qed.

(** C9, as the code has it. A field missing at the top level of a response
    is absorbed by the default of its lookup: a listing page without its
    items field counts as an empty page (the loop goes on, or returns,
    as its token says, with the items unchanged), so a first page with
    neither items nor token makes [list_courses] print 'No courses found.';
    and a course without a name is reported with [None].  What is not
    handled is a method call on a missing value: an enrollment response
    without its profile makes [add_teacher] and [add_student] fail with an
    attribute error that no handler catches, and so does a response that is
    [None] instead of a record in [get_course] and in the listing loop. *)
Theorem missing_fields_default_or_fail :
  (forall srv mk key fuel items tok w d,
      srv (calls w) (mk tok) = Return (VDict d) ->
      dict_get d key = None ->
      list_loop (S fuel) srv mk key items tok w
      = match dict_get d "nextPageToken" with
        | Some tok' =>
            if truthy tok'
            then list_loop fuel srv mk key items tok' (after_call w (mk tok))
            else (Done (Return items), after_call w (mk tok))
        | None => (Done (Return items), after_call w (mk tok))
        end)
  /\ (forall srv fuel d,
        srv [] (courses_list_request VNone) = Return (VDict d) ->
        dict_get d "courses" = None ->
        dict_get d "nextPageToken" = None ->
        list_courses (S fuel) srv init_world
        = (Done (Return tt),
           mkWorld [CoursesList VNone 100] [[PVal (VStr "No courses found.")]]))
  /\ (forall srv d,
        srv [] (CoursesGet "123456") = Return (VDict d) ->
        dict_get d "name" = None ->
        get_course srv init_world
        = (Return tt,
           mkWorld [CoursesGet "123456"]
             [[PVal (VStr ("Course " ++ dq ++ "{%s}" ++ dq ++ " found.")%string);
               PVal VNone]]))
  /\ (forall srv d,
        (forall req, srv [] req = Return (VDict d)) ->
        dict_get d "profile" = None ->
        add_teacher srv init_world
        = (Raise AttributeError,
           mkWorld [TeachersCreate "123456" (VDict [("userId", VStr "alice@example.edu")])] [])
        /\ add_student srv init_world
           = (Raise AttributeError,
              mkWorld [StudentsCreate "123456" "abcdef" (VDict [("userId", VStr "me")])] []))
  /\ (forall srv fuel,
        (forall req, srv [] req = Return VNone) ->
        get_course srv init_world
        = (Raise AttributeError, mkWorld [CoursesGet "123456"] [])
        /\ list_courses (S fuel) srv init_world
           = (Done (Raise AttributeError), mkWorld [CoursesList VNone 100] [])).
Proof.
  repeat apply conj.
  - intros srv mk key fuel items tok w d Hsrv Hmissing.
    rewrite (list_loop_step srv mk key fuel items tok w _ _ _ Hsrv
               (missing_items_carry_nothing key d Hmissing)).
    rewrite app_nil_r. now destruct (dict_get d "nextPageToken").
  - intros srv fuel d Hsrv Hmissing Hlast. unfold list_courses.
    rewrite (list_loop_step srv courses_list_request "courses" fuel [] VNone init_world
               _ _ _ Hsrv (missing_items_carry_nothing "courses" d Hmissing)).
    now rewrite Hlast.
  - intros srv d Hsrv Hmissing.
    unfold get_course, try_except_HttpError, bind, execute, lift, py_get; cbn.
    now rewrite Hsrv, Hmissing.
  - intros srv d Hsrv Hmissing. split.
    + unfold add_teacher, try_except_HttpError, bind, execute, lift, py_get; cbn.
      now rewrite Hsrv, Hmissing.
    + unfold add_student, try_except_HttpError, bind, execute, lift, py_get; cbn.
      now rewrite Hsrv, Hmissing.
  - intros srv fuel Hsrv. split.
    + unfold get_course, try_except_HttpError, bind, execute, lift; cbn.
      now rewrite Hsrv.
    + unfold list_courses. cbn [list_loop]. unfold loop_body, bind, execute, lift; cbn.
      now rewrite Hsrv.
Qed.

(** An enrollment answered with a record that has no profile. *)
Lemma missing_fields_default_or_fail_witness :
  add_teacher (always (Return biology)) init_world
  = (Raise AttributeError,
     mkWorld [TeachersCreate "123456" (VDict [("userId", VStr "alice@example.edu")])] [])
  /\ add_student (always (Return biology)) init_world
     = (Raise AttributeError,
        mkWorld [StudentsCreate "123456" "abcdef" (VDict [("userId", VStr "me")])] []).
Proof.
  apply (proj1 (proj2 (proj2 (proj2 missing_fields_default_or_fail)))
           (always (Return biology)) [("name", VStr "Biology"); ("id", VStr "1")]).
  - intros req. reflexivity.
  - reflexivity.
Defined.

(** C9, as stated, fails on the listing: a page that is an empty record, so
    without its items field, is taken for an empty last page and the
    listing completes. *)
Lemma missing_items_taken_for_empty_page :
  list_courses 1 (always (Return (VDict []))) init_world
  = (Done (Return tt),
     mkWorld [CoursesList VNone 100] [[PVal (VStr "No courses found.")]])
  /\ ~ missing_items_surface.
Proof.
  split; [reflexivity |].
  intros Hall.
  destruct (Hall 0 (always (Return (VDict []))) [] eq_refl eq_refl) as (e & w & Hrun).
  discriminate Hrun.
Qed.

(** * Further properties of the listings *)

(** ** Reports *)

Lemma for_each_app {A} (xs ys : list A) (body : A -> M unit) (w : world) :
  for_each (xs ++ ys) body w
  = match for_each xs body w with
    | (Return _, w') => for_each ys body w'
    | (Raise e, w') => (Raise e, w')
    end.
Proof.
  revert w. induction xs as [| x xs IH]; intros w; cbn [for_each app].
  - reflexivity.
  - unfold bind. destruct (body x w) as [[[] | e] w']; [apply IH | reflexivity].
Qed.

(** A loop body that prints one line per record prints the lines of a list
    of records in order, and touches nothing else. *)
Lemma for_each_records (line : value -> list printed) (body : value -> M unit) :
  (forall d w, body (VDict d) w = (Return tt, mkWorld (calls w) (stdout w ++ [line (VDict d)]))) ->
  forall (items : list value) (w : world),
    forallb is_record items = true ->
    for_each items body w = (Return tt, mkWorld (calls w) (stdout w ++ map line items)).
Proof.
  intros Hbody. induction items as [| item items IH]; intros w Hrec.
  - cbn. rewrite app_nil_r. now destruct w.
  - cbn [forallb] in Hrec. apply andb_prop in Hrec as [Hitem Hrest].
    destruct item; try discriminate Hitem.
    cbn [for_each]. unfold bind. rewrite Hbody.
    rewrite (IH _ Hrest). cbn. now rewrite <- app_assoc.
Qed.

Lemma course_body_record (d : list (string * value)) (w : world) :
  (name <- lift (py_get (VDict d) "name" VNone) ;;
   id <- lift (py_get (VDict d) "id" VNone) ;;
   py_print [PVal name; PVal id]) w
  = (Return tt, mkWorld (calls w) (stdout w ++ [course_line (VDict d)])).
Proof. reflexivity. Qed.

Lemma submission_body_record (d : list (string * value)) (w : world) :
  (id <- lift (py_get (VDict d) "id" VNone) ;;
   creationTime <- lift (py_get (VDict d) "creationTime" VNone) ;;
   py_print [PFmt "%s was submitted at %s" [id; creationTime]]) w
  = (Return tt, mkWorld (calls w) (stdout w ++ [submission_line (VDict d)])).
Proof. reflexivity. Qed.

Lemma report_courses_records (courses : list value) (w : world) :
  forallb is_record courses = true ->
  report_courses courses w
  = (Return tt, mkWorld (calls w) (stdout w ++ courses_output courses)).
Proof.
  intros Hrec. destruct courses as [| course courses]; [reflexivity |].
  unfold report_courses, bind. cbn [py_print].
  rewrite (for_each_records course_line _ course_body_record _ _ Hrec).
  cbn [calls stdout courses_output]. now rewrite <- app_assoc.
Qed.

Lemma report_submissions_records (heading : string) (submissions : list value) (w : world) :
  forallb is_record submissions = true ->
  report_submissions heading submissions w
  = (Return tt, mkWorld (calls w) (stdout w ++ submissions_output heading submissions)).
Proof.
  intros Hrec. destruct submissions as [| submission submissions]; [reflexivity |].
  unfold report_submissions, bind. cbn [py_print].
  rewrite (for_each_records submission_line _ submission_body_record _ _ Hrec).
  cbn [calls stdout submissions_output]. now rewrite <- app_assoc.
Qed.

(** X1. When the fetches of [list_courses] are answered by pages P1..Pn
    (a truthy token on all but the last) whose items are all records, the
    method returns after one request per page and has printed 'Courses:'
    followed by one line per course, name then id ([None] for a missing
    one), in the order the pages served them; with no item at all it has
    printed 'No courses found.' instead. *)
Theorem list_courses_reports_every_item :
  forall (srv : service) (ps : list page) (pn : page) (fuel : nat),
    Forall (page_ok "courses") (ps ++ [pn]) ->
    Forall (fun p => truthy (page_next p) = true) ps ->
    truthy (page_next pn) = false ->
    (forall i p, nth_error (ps ++ [pn]) i = Some p ->
       forall history req,
         length history = i -> srv history req = Return (page_response p)) ->
    length ps < fuel ->
    forallb is_record (concat (map page_items (ps ++ [pn]))) = true ->
    list_courses fuel srv init_world
    = (Done (Return tt),
       mkWorld (map courses_list_request (VNone :: map page_next ps))
               (courses_output (concat (map page_items (ps ++ [pn]))))).
Proof.
  intros srv ps pn fuel Hok Hmore Hlast Hsrv Hfuel Hrec.
  unfold list_courses.
  rewrite (list_loop_pages srv courses_list_request "courses" ps pn fuel [] VNone init_world)
    by assumption.
  rewrite then_report_Return, (report_courses_records _ _ Hrec). reflexivity.
Qed.

Lemma sample_service_serves (i : nat) (p : page) :
  nth_error (sample_first_pages ++ [sample_last_page]) i = Some p ->
  forall history req,
    length history = i -> sample_service history req = Return (page_response p).
Proof.
  intros Hp history req Hlen. unfold sample_service, scripted. rewrite Hlen.
  destruct i as [| [| [| i]]]; cbn in Hp.
  - injection Hp as <-. reflexivity.
  - injection Hp as <-. reflexivity.
  - injection Hp as <-. reflexivity.
  - destruct i; discriminate Hp.
Qed.

Lemma sample_pages_ok :
  Forall (page_ok "courses") (sample_first_pages ++ [sample_last_page]).
Proof. repeat constructor; apply (page_carries_make_page "courses"); discriminate. Qed.

(** The sample listing: a heading and four lines. *)
Lemma list_courses_reports_every_item_witness :
  list_courses 3 sample_service init_world
  = (Done (Return tt),
     mkWorld [CoursesList VNone 100; CoursesList (VStr "t1") 100; CoursesList (VStr "t2") 100]
       [ [PVal (VStr "Courses:")];
         [PVal (VStr "Biology"); PVal (VStr "1")];
         [PVal (VStr "Algebra"); PVal (VStr "2")];
         [PVal (VStr "Algebra"); PVal (VStr "2")];
         [PVal (VStr "Biology"); PVal (VStr "1")] ]).
Proof.
  apply (list_courses_reports_every_item sample_service sample_first_pages sample_last_page 3).
  - exact sample_pages_ok.
  - repeat constructor.
  - reflexivity.
  - exact sample_service_serves.
  - cbn. lia.
  - reflexivity.
Defined.

(** X2. The three submission listings, answered by pages P1..Pn of records
    under 'studentSubmissions', each return after one request per page,
    every request carrying the method's own course, coursework and user
    ids and the token of the page before, and print their heading followed
    by one '%s was submitted at %s' line per submission (id, creation
    time), in the order served; or 'No student submissions found.' when
    there is none. *)
Theorem submission_listings_report_every_item :
  forall (srv : service) (ps : list page) (pn : page) (fuel : nat),
    Forall (page_ok "studentSubmissions") (ps ++ [pn]) ->
    Forall (fun p => truthy (page_next p) = true) ps ->
    truthy (page_next pn) = false ->
    (forall i p, nth_error (ps ++ [pn]) i = Some p ->
       forall history req,
         length history = i -> srv history req = Return (page_response p)) ->
    length ps < fuel ->
    forallb is_record (concat (map page_items (ps ++ [pn]))) = true ->
    list_submissions fuel srv init_world
    = (Done (Return tt),
       mkWorld (map (fun t => StudentSubmissionsList t "123456" "654321" None)
                    (VNone :: map page_next ps))
               (submissions_output "Student Submissions:"
                  (concat (map page_items (ps ++ [pn])))))
    /\ list_student_submissions fuel srv init_world
       = (Done (Return tt),
          mkWorld (map (fun t => StudentSubmissionsList t "123456" "123456" (Some "123456"))
                       (VNone :: map page_next ps))
                  (submissions_output "Student Submissions:"
                     (concat (map page_items (ps ++ [pn])))))
    /\ list_all_submissions fuel srv init_world
       = (Done (Return tt),
          mkWorld (map (fun t => StudentSubmissionsList t "123456" "-" (Some "123456"))
                       (VNone :: map page_next ps))
                  (submissions_output "Complete list of student Submissions:"
                     (concat (map page_items (ps ++ [pn]))))).
Proof.
  intros srv ps pn fuel Hok Hmore Hlast Hsrv Hfuel Hrec.
  unfold list_submissions, list_student_submissions, list_all_submissions.
  repeat split;
    rewrite (list_loop_pages srv _ "studentSubmissions" ps pn fuel [] VNone init_world)
      by assumption;
    rewrite then_report_Return, (report_submissions_records _ _ _ Hrec); reflexivity.
Qed.

(** Two pages of one submission each; the second has no creation time. *)
Lemma submission_listings_report_every_item_witness :
  list_all_submissions 2 submission_service init_world
  = (Done (Return tt),
     mkWorld [StudentSubmissionsList VNone "123456" "-" (Some "123456");
              StudentSubmissionsList (VStr "n1") "123456" "-" (Some "123456")]
       [ [PVal (VStr "Complete list of student Submissions:")];
         [PFmt "%s was submitted at %s" [VStr "s1"; VStr "2018-01-01T00:00:00Z"]];
         [PFmt "%s was submitted at %s" [VStr "s2"; VNone]] ]).
Proof.
  apply (proj2 (proj2 (submission_listings_report_every_item submission_service
                         submission_first_pages submission_last_page 2
                         ltac:(repeat constructor;
                               apply (page_carries_make_page "studentSubmissions");
                               discriminate)
                         ltac:(repeat constructor)
                         eq_refl
                         ltac:(intros i p Hp history req Hlen;
                               unfold submission_service, scripted; rewrite Hlen;
                               destruct i as [| [| i]]; cbn in Hp;
                               [injection Hp as <-; reflexivity
                               | injection Hp as <-; reflexivity
                               | destruct i; discriminate Hp])
                         ltac:(cbn; lia)
                         eq_refl))).
Defined.

(** A loop body that fails on what is not a record stops the loop at the
    first such item, with the lines of the records before it printed. *)
Lemma for_each_stops (line : value -> list printed) (body : value -> M unit) :
  (forall d w, body (VDict d) w = (Return tt, mkWorld (calls w) (stdout w ++ [line (VDict d)]))) ->
  (forall v w, is_record v = false -> body v w = (Raise AttributeError, w)) ->
  forall (before : list value) (bad : value) (after : list value) (w : world),
    forallb is_record before = true ->
    is_record bad = false ->
    for_each (before ++ bad :: after) body w
    = (Raise AttributeError, mkWorld (calls w) (stdout w ++ map line before)).
Proof.
  intros Hbody Hfail before bad after w Hrec Hbad.
  rewrite for_each_app, (for_each_records line body Hbody _ _ Hrec).
  cbn [for_each]. unfold bind. now rewrite (Hfail _ _ Hbad).
Qed.

Lemma course_body_fails (v : value) (w : world) :
  is_record v = false ->
  (name <- lift (py_get v "name" VNone) ;;
   id <- lift (py_get v "id" VNone) ;;
   py_print [PVal name; PVal id]) w
  = (Raise AttributeError, w).
Proof. intros Hv. destruct v; try discriminate Hv; reflexivity. Qed.

(** X3. The report of [list_courses] is not all-or-nothing: when the
    gathered items hold something that is not a record, the method prints
    'Courses:' and the lines of the records before it, then fails with an
    attribute error; the items after it are never printed and no request
    is made. *)
Theorem report_courses_stops_at_non_record :
  forall (before : list value) (bad : value) (after : list value) (w : world),
    forallb is_record before = true ->
    is_record bad = false ->
    report_courses (before ++ bad :: after) w
    = (Raise AttributeError,
       mkWorld (calls w)
               (stdout w ++ [PVal (VStr "Courses:")] :: map course_line before)).
Proof.
  intros before bad after w Hrec Hbad.
  unfold report_courses.
  destruct (before ++ bad :: after) as [| x xs] eqn:Hitems.
  - destruct before; discriminate Hitems.
  - rewrite <- Hitems. unfold bind. cbn [py_print].
    rewrite (for_each_stops course_line _ course_body_record course_body_fails
               before bad after _ Hrec Hbad).
    cbn [calls stdout]. now rewrite <- app_assoc.
Qed.

(** A course, then a bare string, then another course. *)
Lemma report_courses_stops_at_non_record_witness :
  report_courses ([biology] ++ VStr "oops" :: [algebra]) init_world
  = (Raise AttributeError,
     mkWorld (calls init_world)
       (stdout init_world
        ++ [PVal (VStr "Courses:")] :: map course_line [biology])).
Proof.
  apply (report_courses_stops_at_non_record [biology] (VStr "oops") [algebra] init_world);
    reflexivity.
Defined.

(** ** The loop: failures, invariants, fuel *)

(** The loop over pages that all carry a truthy token, up to a fetch that
    fails. *)
Lemma list_loop_pages_raise (srv : service) (mk : value -> request) (key : string) (e : exn) :
  forall (ps : list page) (fuel : nat) (items : list value) (tok : value) (w : world),
    Forall (page_ok key) ps ->
    Forall (fun p => truthy (page_next p) = true) ps ->
    (forall i p, nth_error ps i = Some p ->
       forall history req,
         length history = length (calls w) + i ->
         srv history req = Return (page_response p)) ->
    (forall history req,
        length history = length (calls w) + length ps -> srv history req = Raise e) ->
    length ps < fuel ->
    list_loop fuel srv mk key items tok w
    = (Done (Raise e), mkWorld (calls w ++ map mk (tok :: map page_next ps)) (stdout w)).
Proof.
  induction ps as [| p ps IH]; intros fuel items tok w Hok Hmore Hsrv Hfail Hfuel;
    (destruct fuel as [| fuel]; [inversion Hfuel |]).
  - rewrite (list_loop_raise srv mk key fuel items tok w e); [reflexivity |].
    apply Hfail. cbn. lia.
  - pose proof (Forall_inv Hok) as Hp. apply Forall_inv_tail in Hok.
    pose proof (Forall_inv Hmore) as Htok. apply Forall_inv_tail in Hmore.
    rewrite (list_loop_step srv mk key fuel items tok w
               (page_response p) (page_items p) (page_next p)).
    + rewrite Htok.
      rewrite (IH fuel (items ++ page_items p) (page_next p) (after_call w (mk tok)));
        try assumption.
      * cbn. now rewrite <- !app_assoc.
      * intros i q Hq history req Hlen. apply (Hsrv (S i) q); [exact Hq |].
        rewrite Hlen. cbn. rewrite length_app. cbn. lia.
      * intros history req Hlen. apply Hfail.
        rewrite Hlen. cbn. rewrite length_app. cbn. lia.
      * cbn in Hfuel. lia.
    + apply (Hsrv 0 p); [reflexivity | lia].
    + exact Hp.
Qed.

(** X4. A failure in the middle of a listing discards what was gathered:
    when the first k fetches of [list_courses] return pages with truthy
    tokens and the next fetch raises, the method raises that same failure
    after k+1 requests and has printed nothing, neither the items of the
    pages already read nor a 'none found' line; no request is repeated. *)
Theorem listing_failure_discards_pages :
  forall (srv : service) (e : exn) (ps : list page) (fuel : nat),
    Forall (page_ok "courses") ps ->
    Forall (fun p => truthy (page_next p) = true) ps ->
    (forall i p, nth_error ps i = Some p ->
       forall history req,
         length history = i -> srv history req = Return (page_response p)) ->
    (forall history req, length history = length ps -> srv history req = Raise e) ->
    length ps < fuel ->
    list_courses fuel srv init_world
    = (Done (Raise e),
       mkWorld (map courses_list_request (VNone :: map page_next ps)) []).
Proof.
  intros srv e ps fuel Hok Hmore Hsrv Hfail Hfuel.
  unfold list_courses.
  now rewrite (list_loop_pages_raise srv courses_list_request "courses" e ps fuel
                 [] VNone init_world).
Qed.

(** Two pages, then a 503. *)
Lemma listing_failure_discards_pages_witness :
  list_courses 3 failing_service init_world
  = (Done (Raise (http_error 503)),
     mkWorld [CoursesList VNone 100; CoursesList (VStr "t1") 100; CoursesList (VStr "t2") 100]
             []).
Proof.
  apply (listing_failure_discards_pages failing_service (http_error 503)
           sample_first_pages 3).
  - repeat constructor; apply (page_carries_make_page "courses"); discriminate.
  - repeat constructor.
  - intros i p Hp history req Hlen. unfold failing_service, scripted. rewrite Hlen.
    destruct i as [| [| i]]; cbn in Hp.
    + injection Hp as <-. reflexivity.
    + injection Hp as <-. reflexivity.
    + destruct i; discriminate Hp.
  - intros history req Hlen. unfold failing_service, scripted. rewrite Hlen. reflexivity.
  - cbn. lia.
Defined.

(** X5. Whatever the service answers and however the loop ends (return,
    failure, or fuel spent), the pagination loop prints nothing, keeps the
    request log it started with as a prefix, and adds at most one request
    per unit of fuel. *)
Theorem list_loop_only_logs_requests :
  forall (srv : service) (mk : value -> request) (key : string)
         (fuel : nat) (items : list value) (tok : value) (w : world),
    stdout (snd (list_loop fuel srv mk key items tok w)) = stdout w
    /\ exists rest,
         calls (snd (list_loop fuel srv mk key items tok w)) = calls w ++ rest
         /\ length rest <= fuel.
Proof.
  intros srv mk key.
  induction fuel as [| fuel IH]; intros items tok w.
  - cbn. split; [reflexivity |]. exists []. now rewrite app_nil_r.
  - cbn [list_loop]. unfold loop_body, bind, execute, lift, ret.
    assert (Hstop : forall (r : run (list value)),
               stdout (snd (r, after_call w (mk tok))) = stdout w
               /\ exists rest,
                    calls (snd (r, after_call w (mk tok))) = calls w ++ rest
                    /\ length rest <= S fuel).
    { intros r. split; [reflexivity |]. exists [mk tok]. split; [reflexivity | cbn; lia]. }
    destruct (srv (calls w) (mk tok)) as [response | e]; [| apply Hstop].
    destruct (py_get response key (VList [])) as [pg | e]; [| apply Hstop].
    destruct (py_iter pg) as [more | e]; [| apply Hstop].
    destruct (py_get response "nextPageToken" VNone) as [tok' | e]; [| apply Hstop].
    destruct (truthy tok'); [| apply Hstop].
    destruct (IH (items ++ more) tok' (mkWorld (calls w ++ [mk tok]) (stdout w)))
      as [Hout (rest & Hcalls & Hlen)].
    split; [exact Hout |].
    exists (mk tok :: rest). rewrite Hcalls. cbn [calls].
    rewrite <- app_assoc. split; [reflexivity | cbn; lia].
Qed.

(** X6. The loop never drops or reorders what it has gathered: when it
    returns, its result is the items it started the turn with, followed by
    whatever the pages added. *)
Theorem list_loop_items_only_grow :
  forall (srv : service) (mk : value -> request) (key : string)
         (fuel : nat) (items : list value) (tok : value) (w : world)
         (out : list value) (w' : world),
    list_loop fuel srv mk key items tok w = (Done (Return out), w') ->
    exists more, out = items ++ more.
Proof.
  intros srv mk key.
  induction fuel as [| fuel IH]; intros items tok w out w' Hrun.
  - discriminate Hrun.
  - cbn [list_loop] in Hrun. unfold loop_body, bind, execute, lift, ret in Hrun.
    destruct (srv (calls w) (mk tok)) as [response | e]; [| discriminate Hrun].
    destruct (py_get response key (VList [])) as [pg | e]; [| discriminate Hrun].
    destruct (py_iter pg) as [more | e]; [| discriminate Hrun].
    destruct (py_get response "nextPageToken" VNone) as [tok' | e]; [| discriminate Hrun].
    destruct (truthy tok').
    + destruct (IH _ _ _ _ _ Hrun) as [more' ->].
      exists (more ++ more'). now rewrite app_assoc.
    + injection Hrun as <- _. now exists more.
Qed.

(** Started with a course already gathered, the sample listing returns it
    first. *)
Lemma list_loop_items_only_grow_witness :
  list_loop 3 sample_service courses_list_request "courses" [algebra] VNone init_world
  = (Done (Return [algebra; biology; algebra; algebra; biology]),
     mkWorld [CoursesList VNone 100; CoursesList (VStr "t1") 100; CoursesList (VStr "t2") 100]
             [])
  /\ exists more, [algebra; biology; algebra; algebra; biology] = [algebra] ++ more.
Proof.
  split; [reflexivity |].
  apply (list_loop_items_only_grow sample_service courses_list_request "courses" 3
           [algebra] VNone init_world
           [algebra; biology; algebra; algebra; biology]
           (mkWorld [CoursesList VNone 100; CoursesList (VStr "t1") 100;
                     CoursesList (VStr "t2") 100] [])).
  reflexivity.
Defined.



(** X8. An items field that is present but not iterable is not read as an
    empty page: when a page carries [None], a boolean or a number under
    the items key, the loop fails with a type error right after that
    request, whatever it had gathered and whatever token the page has. *)
Theorem non_iterable_items_fail :
  forall (srv : service) (mk : value -> request) (key : string)
         (fuel : nat) (items : list value) (tok : value) (w : world)
         (d : list (string * value)) (v : value),
    srv (calls w) (mk tok) = Return (VDict d) ->
    dict_get d key = Some v ->
    not_iterable v = true ->
    list_loop (S fuel) srv mk key items tok w
    = (Done (Raise TypeError), after_call w (mk tok)).
Proof.
  intros srv mk key fuel items tok w d v Hsrv Hkey Hv.
  cbn [list_loop]. unfold loop_body, bind, execute, lift, py_get.
  rewrite Hsrv, Hkey.
  destruct v; try discriminate Hv; reflexivity.
Qed.

(** A page whose courses are null. *)
Lemma non_iterable_items_fail_witness :
  list_loop 1 (always (Return (VDict [("courses", VNone)])))
    courses_list_request "courses" [] VNone init_world
  = (Done (Raise TypeError), after_call init_world (courses_list_request VNone)).
Proof.
  apply (non_iterable_items_fail (always (Return (VDict [("courses", VNone)])))
           courses_list_request "courses" 0 [] VNone init_world
           [("courses", VNone)] VNone);
    reflexivity.
Defined.

(** * Further properties of the single-call operations *)

(** ** Error bodies the handlers cannot read *)

(** X9. The handlers of [get_course], [add_teacher] and [add_student] read
    the code out of the error body, and what they cannot read is not
    recovered.  A body that is not JSON replaces the HTTP error by a decode
    error; a body that is not a record, or has no record under 'error',
    replaces it by an attribute error; an 'error' record whose 'code' is
    missing or is not a number (the string '404', say) raises the original
    HTTP error again.  In each case one request was made and nothing was
    printed. *)
Theorem unreadable_error_body_not_recovered :
  forall (op : single_call_op) (srv : service) (content : option value),
    intercepted op <> [] ->
    (forall req, srv [] req = Raise (HttpError content)) ->
    exists req,
      (content = None ->
       run_op op srv init_world = (Raise JSONDecodeError, mkWorld [req] []))
      /\ (forall body,
          content = Some body ->
          is_record body = false ->
          run_op op srv init_world = (Raise AttributeError, mkWorld [req] []))
      /\ (forall d,
          content = Some (VDict d) ->
          is_record (field (VDict d) "error") = false ->
          run_op op srv init_world = (Raise AttributeError, mkWorld [req] []))
      /\ (forall d err,
          content = Some (VDict d) ->
          dict_get d "error" = Some (VDict err) ->
          not_a_number (field (VDict err) "code") = true ->
          run_op op srv init_world = (Raise (HttpError content), mkWorld [req] [])).
Proof.
  intros op srv content Hop Hraise.
  destruct op; cbn [intercepted] in Hop; try (now destruct Hop); eexists;
    cbn [run_op];
    unfold get_course, add_teacher, add_student, try_except_HttpError, bind, execute,
           lift, json_loads, raise;
    cbn -[py_get py_eq_int String.append];
    rewrite Hraise;
    (repeat apply conj;
     [ intros ->; reflexivity
     | intros body -> Hbody; destruct body; try discriminate Hbody; reflexivity
     | intros d -> Herr; unfold field in Herr; cbn in Herr |- *;
       destruct (dict_get d "error") as [[] |]; try discriminate Herr; reflexivity
     | intros d err -> Herr Hcode; unfold field in Hcode; cbn in Hcode |- *;
       rewrite Herr; cbn;
       destruct (dict_get err "code") as [[] |]; try discriminate Hcode; reflexivity ]).
Qed.

(** A 404 whose code is carried as a string is raised again. *)
Lemma unreadable_error_body_not_recovered_witness :
  exists req,
    run_op OpGetCourse
      (always (Raise (HttpError (Some (VDict [("error", VDict [("code", VStr "404")])])))))
      init_world
    = (Raise (HttpError (Some (VDict [("error", VDict [("code", VStr "404")])]))),
       mkWorld [req] []).
Proof.
  destruct (unreadable_error_body_not_recovered OpGetCourse
              (always (Raise (HttpError (Some (VDict [("error", VDict [("code", VStr "404")])])))))
              (Some (VDict [("error", VDict [("code", VStr "404")])]))
              ltac:(discriminate) (fun _ => eq_refl))
    as (req & _ & _ & _ & Hcode).
  exists req.
  apply (Hcode [("error", VDict [("code", VStr "404")])] [("code", VStr "404")]);
    reflexivity.
Defined.

(** ** [update_course] from end to end *)

Lemma dict_set_keys (d : list (string * value)) (k : string) (v : value) :
  map fst (dict_set d k v) = map fst d ++ (if dict_has d k then [] else [k]).
Proof.
  unfold dict_has.
  induction d as [| [k' v'] d IH]; cbn.
  - reflexivity.
  - destruct (String.eqb k' k) eqn:E; cbn.
    + apply String.eqb_eq in E. subst k'. now rewrite app_nil_r.
    + now rewrite IH.
Qed.

Lemma dict_has_set_other (d : list (string * value)) (k k' : string) (v : value) :
  k' <> k -> dict_has (dict_set d k v) k' = dict_has d k'.
Proof. intros Hne. unfold dict_has. now rewrite dict_get_set_other. Qed.

(** X10. When the get of [update_course] returns a record and the update
    returns a record, the method returns after exactly these two requests
    and prints one line, 'Course %s updated.' with the name found in the
    response of the update (not the one fetched), [None] if it has no
    name. *)
Theorem update_course_reports_updated_name :
  forall (srv : service) (d d2 : list (string * value)),
    srv [] (CoursesGet "123456") = Return (VDict d) ->
    (forall req, srv [CoursesGet "123456"] req = Return (VDict d2)) ->
    update_course srv init_world
    = (Return tt,
       mkWorld
         [CoursesGet "123456";
          CoursesUpdate "123456"
            (VDict (dict_set (dict_set d "section" (VStr "Period 3")) "room" (VStr "302")))]
         [[PFmt "Course %s updated." [field (VDict d2) "name"]]]).
Proof.
  intros srv d d2 Hget Hput.
  unfold update_course, bind, execute, lift; cbn.
  rewrite Hget; cbn. now rewrite Hput.
Qed.

(** The fetched course is called Biology, the updated one Algebra. *)
Lemma update_course_reports_updated_name_witness :
  update_course (scripted [Return biology; Return algebra]) init_world
  = (Return tt,
     mkWorld
       [CoursesGet "123456";
        CoursesUpdate "123456"
          (VDict (dict_set (dict_set [("name", VStr "Biology"); ("id", VStr "1")]
                              "section" (VStr "Period 3")) "room" (VStr "302")))]
       [[PFmt "Course %s updated."
              [field (VDict [("name", VStr "Algebra"); ("id", VStr "2")]) "name"]]]).
Proof.
  apply (update_course_reports_updated_name (scripted [Return biology; Return algebra])).
  - reflexivity.
  - intros req. reflexivity.
Defined.

(** X11. [update_course] sends its update only for a fetched record, and
    reports only an updated record.  If the get raises, that failure is
    raised; if the get returns something that is not a record, the item
    assignment fails with a type error; in both cases the get is the only
    request.  If the update raises, that failure is raised, and if it
    returns something that is not a record, an attribute error is; in both
    cases two requests were made.  Nothing is printed in any of the four. *)
Theorem update_course_failures :
  forall (srv : service),
    (forall e,
        srv [] (CoursesGet "123456") = Raise e ->
        update_course srv init_world = (Raise e, mkWorld [CoursesGet "123456"] []))
    /\ (forall v,
        srv [] (CoursesGet "123456") = Return v ->
        is_record v = false ->
        update_course srv init_world = (Raise TypeError, mkWorld [CoursesGet "123456"] []))
    /\ (forall d e,
        srv [] (CoursesGet "123456") = Return (VDict d) ->
        (forall req, srv [CoursesGet "123456"] req = Raise e) ->
        update_course srv init_world
        = (Raise e,
           mkWorld
             [CoursesGet "123456";
              CoursesUpdate "123456"
                (VDict (dict_set (dict_set d "section" (VStr "Period 3")) "room" (VStr "302")))]
             []))
    /\ (forall d v,
        srv [] (CoursesGet "123456") = Return (VDict d) ->
        (forall req, srv [CoursesGet "123456"] req = Return v) ->
        is_record v = false ->
        update_course srv init_world
        = (Raise AttributeError,
           mkWorld
             [CoursesGet "123456";
              CoursesUpdate "123456"
                (VDict (dict_set (dict_set d "section" (VStr "Period 3")) "room" (VStr "302")))]
             [])).
Proof.
  intros srv. repeat apply conj.
  - intros e Hget. unfold update_course, bind, execute; cbn. now rewrite Hget.
  - intros v Hget Hv. unfold update_course, bind, execute, lift; cbn. rewrite Hget.
    destruct v; try discriminate Hv; reflexivity.
  - intros d e Hget Hput. unfold update_course, bind, execute, lift; cbn.
    rewrite Hget; cbn. now rewrite Hput.
  - intros d v Hget Hput Hv. unfold update_course, bind, execute, lift; cbn.
    rewrite Hget; cbn. rewrite Hput.
    destruct v; try discriminate Hv; reflexivity.
Qed.

(** A get answered with a list of courses instead of a course. *)
Lemma update_course_failures_witness :
  update_course (always (Return (VList [biology]))) init_world
  = (Raise TypeError, mkWorld [CoursesGet "123456"] []).
Proof.
  apply (proj1 (proj2 (update_course_failures (always (Return (VList [biology])))))
           (VList [biology]));
    reflexivity.
Defined.

(** X12. The body [update_course] sends has the fields of the fetched
    record in their order, with 'section' and then 'room' added at the end
    only when the record did not have them: no field is dropped, moved or
    duplicated, and at most two are added. *)
Theorem update_course_keeps_field_order :
  forall (srv : service) (d : list (string * value)),
    srv [] (CoursesGet "123456") = Return (VDict d) ->
    exists body,
      calls (snd (update_course srv init_world))
        = [CoursesGet "123456"; CoursesUpdate "123456" (VDict body)]
      /\ map fst body
         = map fst d
           ++ (if dict_has d "section" then [] else ["section"])
           ++ (if dict_has d "room" then [] else ["room"])
      /\ length d <= length body <= length d + 2.
Proof.
  intros srv d Hget.
  exists (dict_set (dict_set d "section" (VStr "Period 3")) "room" (VStr "302")).
  assert (Hkeys : map fst (dict_set (dict_set d "section" (VStr "Period 3")) "room" (VStr "302"))
                  = map fst d
                    ++ (if dict_has d "section" then [] else ["section"])
                    ++ (if dict_has d "room" then [] else ["room"])).
  { rewrite !dict_set_keys, dict_has_set_other by discriminate.
    now rewrite <- app_assoc. }
  repeat apply conj.
  - unfold update_course, bind, execute, lift; cbn.
    rewrite Hget; cbn.
    destruct (srv [_] _) as [resp | e]; [| reflexivity].
    destruct (py_get resp "name" VNone); reflexivity.
  - exact Hkeys.
  - apply (f_equal (@length string)) in Hkeys.
    rewrite !length_app, !length_map in Hkeys. lia.
  - apply (f_equal (@length string)) in Hkeys.
    rewrite !length_app, !length_map in Hkeys.
    destruct (dict_has d "section"), (dict_has d "room"); cbn in Hkeys; lia.
Qed.

(** A record that has a room but no section: the section goes last. *)
Lemma update_course_keeps_field_order_witness :
  exists body,
    calls (snd (update_course
                  (always (Return (VDict [("room", VStr "101"); ("name", VStr "Biology")])))
                  init_world))
      = [CoursesGet "123456"; CoursesUpdate "123456" (VDict body)]
    /\ map fst body
       = map fst [("room", VStr "101"); ("name", VStr "Biology")]
         ++ (if dict_has [("room", VStr "101"); ("name", VStr "Biology")] "section"
             then [] else ["section"])
         ++ (if dict_has [("room", VStr "101"); ("name", VStr "Biology")] "room"
             then [] else ["room"])
    /\ length [("room", VStr "101"); ("name", VStr "Biology")] <= length body
       <= length [("room", VStr "101"); ("name", VStr "Biology")] + 2.
Proof.
  apply (update_course_keeps_field_order
           (always (Return (VDict [("room", VStr "101"); ("name", VStr "Biology")])))).
  reflexivity.
Defined.

(** ** What the other operations report *)

(** X13. An enrollment that succeeds reports the full name found under
    profile, name, fullName of the response ([None] when the innermost
    entry is missing) together with the course id; when the profile has no
    record under 'name' both functions fail with an attribute error after
    their one request, nothing printed. *)
Theorem enrollment_reports_full_name :
  forall (srv : service) (d p : list (string * value)),
    (forall req, srv [] req = Return (VDict d)) ->
    dict_get d "profile" = Some (VDict p) ->
    (forall n,
        dict_get p "name" = Some (VDict n) ->
        add_teacher srv init_world
        = (Return tt,
           mkWorld [TeachersCreate "123456" (VDict [("userId", VStr "alice@example.edu")])]
             [[PFmt "User %s was added as a teacher to the course with ID %s"
                    [field (VDict n) "fullName"; VStr "123456"]]])
        /\ add_student srv init_world
           = (Return tt,
              mkWorld [StudentsCreate "123456" "abcdef" (VDict [("userId", VStr "me")])]
                [[PFmt ("User {%s} was enrolled as a student in
                       the course with ID " ++ dq ++ "{%s}" ++ dq)%string
                       [field (VDict n) "fullName"; VStr "123456"]]]))
    /\ (is_record (field (VDict p) "name") = false ->
        add_teacher srv init_world
        = (Raise AttributeError,
           mkWorld [TeachersCreate "123456" (VDict [("userId", VStr "alice@example.edu")])] [])
        /\ add_student srv init_world
           = (Raise AttributeError,
              mkWorld [StudentsCreate "123456" "abcdef" (VDict [("userId", VStr "me")])] [])).
Proof.
  intros srv d p Hsrv Hprofile. split.
  - intros n Hname. split;
      unfold add_teacher, add_student, try_except_HttpError, bind, execute, lift, py_get, field;
      cbn; rewrite Hsrv, Hprofile, Hname; reflexivity.
  - intros Hname. unfold field in Hname. cbn in Hname.
    split;
      unfold add_teacher, add_student, try_except_HttpError, bind, execute, lift, py_get;
      cbn; rewrite Hsrv, Hprofile;
      destruct (dict_get p "name") as [[] |]; try discriminate Hname; reflexivity.
Qed.

(** A teacher with a full name. *)
Lemma enrollment_reports_full_name_witness :
  add_teacher
    (always (Return (VDict [("profile",
                             VDict [("name", VDict [("fullName", VStr "Alice A.")])])])))
    init_world
  = (Return tt,
     mkWorld [TeachersCreate "123456" (VDict [("userId", VStr "alice@example.edu")])]
       [[PFmt "User %s was added as a teacher to the course with ID %s"
              [field (VDict [("fullName", VStr "Alice A.")]) "fullName"; VStr "123456"]]]).
Proof.
  apply (proj1 (enrollment_reports_full_name
                  (always (Return (VDict [("profile",
                                           VDict [("name",
                                                   VDict [("fullName", VStr "Alice A.")])])])))
                  _ [("name", VDict [("fullName", VStr "Alice A.")])]
                  (fun _ => eq_refl) eq_refl)
           [("fullName", VStr "Alice A.")] eq_refl).
Defined.

(** X14. [create_course], [get_course], [patch_course] and
    [create_coursework] report what the service answered, not what they
    sent: given a record they print one line built from its name, id, or
    both ([None] for a missing entry) and return; given anything that is
    not a record they fail with an attribute error, which the handler of
    [get_course] does not catch, after their one request and with nothing
    printed. *)
Theorem reporters_read_the_response :
  forall (srv : service) (response : value),
    (forall req, srv [] req = Return response) ->
    (is_record response = true ->
     (exists req,
         create_course srv init_world
         = (Return tt,
            mkWorld [req]
              [[PVal (VStr "Course created:"); PVal (field response "name");
                PVal (field response "id")]]))
     /\ get_course srv init_world
        = (Return tt,
           mkWorld [CoursesGet "123456"]
             [[PVal (VStr ("Course " ++ dq ++ "{%s}" ++ dq ++ " found.")%string);
               PVal (field response "name")]])
     /\ patch_course srv init_world
        = (Return tt,
           mkWorld [CoursesPatch "123456" "section,room"
                      (VDict [("section", VStr "Period 3"); ("room", VStr "302")])]
             [[PFmt ("Course " ++ dq ++ "%s" ++ dq ++ " updated.")%string
                    [field response "name"]]])
     /\ (exists req,
            create_coursework srv init_world
            = (Return tt,
               mkWorld [req]
                 [[PFmt "Assignment created with ID {%s}" [field response "id"]]])))
    /\ (is_record response = false ->
        (exists req,
            create_course srv init_world = (Raise AttributeError, mkWorld [req] []))
        /\ get_course srv init_world
           = (Raise AttributeError, mkWorld [CoursesGet "123456"] [])
        /\ patch_course srv init_world
           = (Raise AttributeError,
              mkWorld [CoursesPatch "123456" "section,room"
                         (VDict [("section", VStr "Period 3"); ("room", VStr "302")])]
                      [])
        /\ (exists req,
               create_coursework srv init_world = (Raise AttributeError, mkWorld [req] []))).
Proof.
  intros srv response Hsrv.
  split; intros Hrec; destruct response; try discriminate Hrec;
    (split; [eexists | split; [| split; [| eexists]]]);
    unfold create_course, get_course, patch_course, create_coursework,
           try_except_HttpError, bind, execute, lift;
    cbn; rewrite Hsrv; reflexivity.
Qed.

(** A created course answered without an id. *)
Lemma reporters_read_the_response_witness :
  exists req,
    create_course (always (Return (VDict [("name", VStr "Biology")]))) init_world
    = (Return tt,
       mkWorld [req]
         [[PVal (VStr "Course created:");
           PVal (field (VDict [("name", VStr "Biology")]) "name");
           PVal (field (VDict [("name", VStr "Biology")]) "id")]]).
Proof.
  apply (proj1 (proj1 (reporters_read_the_response
                         (always (Return (VDict [("name", VStr "Biology")])))
                         (VDict [("name", VStr "Biology")])
                         (fun _ => eq_refl))
                  eq_refl)).
Defined.
